(** * IQR outlier filter and high-correlation pair selection

    A shallow embedding of [utils/preprocessing.py] (class
    [OutlierRemoverIQR]) and of the pair-selection loop of
    [utils/visualization/correlation.py] ([plot_high_correlation_scatter]),
    together with the pandas operations these two functions call.

    Numbers are IEEE-754 binary64 values ([float]), as in a pandas
    [float64] column; a missing value is NaN.  Python exceptions are values
    of [exn]; the estimator object lives in a heap because [fit] assigns
    its attributes in place and returns [self]. *)

From Stdlib Require Import Floats List Bool String ZArith Lia PeanoNat.
Import ListNotations.

(* ------------------------------------------------------------------ *)
(** ** Python results and exceptions *)

Module Py.

Inductive exn : Type :=
| AttributeError (name : string)
| KeyError (labels : list string)
| TypeError
| ValueError
| IndexError
| ZeroDivisionError.

Inductive result (A : Type) : Type :=
| Ok (a : A)
| Raise (e : exn).

Arguments Ok {A} a.
Arguments Raise {A} e.

Definition bind {A B} (r : result A) (k : A -> result B) : result B :=
  match r with
  | Ok a => k a
  | Raise e => Raise e
  end.

(** Run [f] over a list from left to right, stopping at the first
    exception. *)
Fixpoint mapM {A B} (f : A -> result B) (l : list A) : result (list B) :=
  match l with
  | [] => Ok []
  | a :: l' =>
      bind (f a) (fun b => bind (mapM f l') (fun bs => Ok (b :: bs)))
  end.

End Py.

Import Py.

Declare Scope py_scope.
Delimit Scope py_scope with py.
Notation "x <- c ;; k" := (Py.bind c (fun x => k))
  (at level 61, c at next level, right associativity) : py_scope.

(* ------------------------------------------------------------------ *)
(** ** The pandas objects and operations used by the source *)

Module Pandas.

Local Open Scope py_scope.
Local Open Scope float_scope.

(** A cell of a numpy-backed column: a number of a [float64] column (NaN
    when missing) or a value of an [object] column (a category, a
    string).  Nullable columns, whose missing value is [pd.NA], are the
    matter of [Nullable] below. *)
Inductive cell : Type :=
| Num (x : float)
| Obj (s : string).

(** A row carries its index label and one cell per column. *)
Record Row : Type := mkRow { label : Z; cells : list cell }.

(** A frame: its column labels, taken to be distinct (a row maps column
    names to values), and its rows in order. *)
Record DataFrame : Type := mkDF { columns : list string; rows : list Row }.

Record Series : Type := mkSeries { s_index : list string; s_values : list float }.

Definition list_string_eqb (a b : list string) : bool :=
  if list_eq_dec string_dec a b then true else false.

(** [Index.get_loc]: position of the first column called [c]. *)
Fixpoint get_loc (c : string) (cols : list string) : option nat :=
  match cols with
  | [] => None
  | c' :: cols' =>
      if String.eqb c c' then Some O
      else match get_loc c cols' with
           | Some p => Some (S p)
           | None => None
           end
  end.

Definition has_column (cols : list string) (c : string) : bool :=
  match get_loc c cols with Some _ => true | None => false end.

(** The cell of row [r] at position [p]; a cell the row does not have
    reads as missing. *)
Definition iat (r : Row) (p : nat) : cell := nth p (cells r) (Num nan).

(** The cell of row [r] under the column called [c]. *)
Definition at_label (cols : list string) (r : Row) (c : string) : cell :=
  match get_loc c cols with
  | Some p => iat r p
  | None => Num nan
  end.

(** [df[cs]] with a list of labels: the frame restricted to the columns
    [cs], in that order; [KeyError] naming the labels that are not
    columns of [df]. *)
Definition getitem_list (df : DataFrame) (cs : list string) : result DataFrame :=
  match filter (fun c => negb (has_column (columns df) c)) cs with
  | [] => Ok (mkDF cs (map (fun r => mkRow (label r) (map (at_label (columns df) r) cs))
                           (rows df)))
  | missing => Raise (KeyError missing)
  end.

(** Comparing a cell with a number: a numeric cell compares as a
    float (false when either side is NaN); an [object] cell raises
    [TypeError]. *)
Definition cmp_cell (op : float -> float -> bool) (c : cell) (v : float)
  : result bool :=
  match c with
  | Num x => Ok (op x v)
  | Obj _ => Raise TypeError
  end.

Fixpoint cmp_cells (op : float -> float -> bool) (cs : list cell) (vs : list float)
  : result (list bool) :=
  match cs, vs with
  | c :: cs', v :: vs' =>
      b <- cmp_cell op c v ;;
      bs <- cmp_cells op cs' vs' ;;
      Ok (b :: bs)
  | _, _ => Ok []
  end.

(** [df >= s] and [df <= s] for a frame and a Series: the Series is
    matched against the frame's columns.  pandas 2 raises [ValueError]
    ("Operands are not aligned") unless the Series index equals the
    frame's columns, and then compares position by position, each row
    against the Series. *)
Definition cmp_frame (op : float -> float -> bool) (df : DataFrame) (s : Series)
  : result (list (list bool)) :=
  if list_string_eqb (columns df) (s_index s) then
    mapM (fun r => cmp_cells op (cells r) (s_values s)) (rows df)
  else Raise ValueError.

Definition ge (x v : float) : bool := v <=? x.
Definition le (x v : float) : bool := x <=? v.

Fixpoint zip_with {A B C} (f : A -> B -> C) (l : list A) (m : list B) : list C :=
  match l, m with
  | a :: l', b :: m' => f a b :: zip_with f l' m'
  | _, _ => []
  end.

(** [a & b] on two boolean frames of the same shape. *)
Definition frame_and (a b : list (list bool)) : list (list bool) :=
  zip_with (zip_with andb) a b.

(** [masks.all(axis=1)]: one boolean per row, true when every entry of
    the row is true (true for a row without entries). *)
Definition all_axis1 (m : list (list bool)) : list bool :=
  map (forallb (fun b => b)) m.

(** [df[mask]] with a boolean Series on the same index: the rows whose
    mask entry is true, all columns kept. *)
Fixpoint select_rows (mask : list bool) (rs : list Row) : list Row :=
  match mask, rs with
  | b :: mask', r :: rs' =>
      if b then r :: select_rows mask' rs' else select_rows mask' rs'
  | _, _ => []
  end.

Definition getitem_mask (df : DataFrame) (mask : list bool) : DataFrame :=
  mkDF (columns df) (select_rows mask (rows df)).

(** *** Quantiles

    [DataFrame.quantile(q)] drops the missing values of each column and
    hands the rest to numpy's percentile with the [linear] method, which
    is what follows. *)

Definition float_of_nat (n : nat) : float :=
  PrimFloat.of_uint63 (Uint63.of_Z (Z.of_nat n)).

Fixpoint insert_sorted (x : float) (l : list float) : list float :=
  match l with
  | [] => [x]
  | y :: l' => if x <=? y then x :: l else y :: insert_sorted x l'
  end.

(** The values in ascending order. *)
Definition sort (l : list float) : list float :=
  fold_right insert_sorted [] l.

(** [floor(h)] as a position in a column of [k + 1] values: the largest
    [j <= k] with [j <= h], or 0. *)
Fixpoint floor_index (k : nat) (h : float) : nat :=
  match k with
  | O => O
  | S k' => if float_of_nat k <=? h then k else floor_index k' h
  end.

(** numpy's [_lerp]: interpolate from [a] when [t < 0.5], from [b]
    otherwise. *)
Definition lerp (a b t : float) : float :=
  if 0.5 <=? t then b - (b - a) * (1 - t) else a + (b - a) * t.

(** The [q]-quantile ([0 <= q <= 1]) of the non-missing values of a
    column by linear interpolation: with the [n] values sorted, the
    virtual index is [(n-1)*q]; the result interpolates between the two
    neighbouring values.  NaN when no value is left. *)
Definition quantile_1d (q : float) (xs : list float) : float :=
  let vs := sort (filter (fun x => negb (is_nan x)) xs) in
  match vs with
  | [] => nan
  | _ =>
      let n1 := Nat.pred (List.length vs) in
      let h := float_of_nat n1 * q in
      let prev := floor_index n1 h in
      let next := Nat.min (S prev) n1 in
      lerp (nth prev vs nan) (nth next vs nan) (h - float_of_nat prev)
  end.

Definition as_float (c : cell) : result float :=
  match c with
  | Num x => Ok x
  | Obj _ => Raise TypeError
  end.

(** The values of the column at position [p]. *)
Definition column_at (df : DataFrame) (p : nat) : list cell :=
  map (fun r => iat r p) (rows df).

(** [df.quantile(q)]: a Series indexed by the columns of [df];
    [TypeError] on a column that holds a non-number.  The type of a
    column is read off its cells, so a column without rows counts as
    [float64]: what pandas does with a column of another type that has no
    rows is not modelled. *)
Definition quantile (df : DataFrame) (q : float) : result Series :=
  vals <- mapM (fun p => xs <- mapM as_float (column_at df p) ;;
                         Ok (quantile_1d q xs))
               (seq O (List.length (columns df))) ;;
  Ok (mkSeries (columns df) vals).

(** *** The statistics frame

    [pd.DataFrame(index=...)] and the column assignments of [fit]: a
    frame with a label per selected column and named columns of floats,
    in order of insertion. *)
Record StatsFrame : Type :=
  mkStats { st_index : list string; st_data : list (string * list float) }.

Definition empty_frame (idx : list string) : StatsFrame := mkStats idx [].

Fixpoint assoc_set (k : string) (v : list float) (l : list (string * list float))
  : list (string * list float) :=
  match l with
  | [] => [(k, v)]
  | (k', v') :: l' =>
      if String.eqb k k' then (k, v) :: l' else (k', v') :: assoc_set k v l'
  end.

Fixpoint assoc_get (k : string) (l : list (string * list float))
  : option (list float) :=
  match l with
  | [] => None
  | (k', v') :: l' => if String.eqb k k' then Some v' else assoc_get k l'
  end.

(** [stats[name]]. *)
Definition getitem_stat (fr : StatsFrame) (name : string) : result Series :=
  match assoc_get name (st_data fr) with
  | Some vs => Ok (mkSeries (st_index fr) vs)
  | None => Raise (KeyError [name])
  end.

(** [stats[name] = s], for a Series [s] that carries the frame's own
    index (every assignment of [fit] does): the values are stored as
    they are. *)
Definition setitem_stat (fr : StatsFrame) (name : string) (s : Series) : StatsFrame :=
  mkStats (st_index fr) (assoc_set name (s_values s) (st_data fr)).

(** Series arithmetic between columns of one frame (same index):
    element by element. *)
Definition series_sub (a b : Series) : Series :=
  mkSeries (s_index a) (zip_with PrimFloat.sub (s_values a) (s_values b)).

Definition series_add (a b : Series) : Series :=
  mkSeries (s_index a) (zip_with PrimFloat.add (s_values a) (s_values b)).

Definition scalar_mul (k : float) (a : Series) : Series :=
  mkSeries (s_index a) (map (PrimFloat.mul k) (s_values a)).

End Pandas.

Import Pandas.

(* ------------------------------------------------------------------ *)
(** ** utils/preprocessing.py: class OutlierRemoverIQR *)

Module Preprocessing.

(** The instance attributes of an estimator object.  An attribute that
    was never assigned is [None]; reading it raises [AttributeError]. *)
Record OutlierRemoverIQR : Type :=
  mkEstimator { numerical_columns_ : option (list string);
                stats_ : option StatsFrame }.

(** A freshly constructed [OutlierRemoverIQR()]. *)
Definition unfitted : OutlierRemoverIQR := mkEstimator None None.

Definition ref : Type := nat.

(** The heap: the attributes of every estimator object. *)
Definition Heap : Type := ref -> OutlierRemoverIQR.

(** A method body: it may update the heap and returns or raises. *)
Definition M (A : Type) : Type := Heap -> Heap * result A.

Definition ret {A} (a : A) : M A := fun h => (h, Ok a).

Definition bindM {A B} (m : M A) (k : A -> M B) : M B :=
  fun h => match m h with
           | (h', Ok a) => k a h'
           | (h', Raise e) => (h', Raise e)
           end.

Definition lift {A} (r : result A) : M A := fun h => (h, r).

Definition update (h : Heap) (o : ref) (e : OutlierRemoverIQR) : Heap :=
  fun o' => if Nat.eqb o' o then e else h o'.

Definition get_numerical_columns_ (self : ref) : M (list string) :=
  fun h => match numerical_columns_ (h self) with
           | Some cs => (h, Ok cs)
           | None => (h, Raise (AttributeError "numerical_columns_"))
           end.

Definition get_stats_ (self : ref) : M StatsFrame :=
  fun h => match stats_ (h self) with
           | Some fr => (h, Ok fr)
           | None => (h, Raise (AttributeError "stats_"))
           end.

Definition set_numerical_columns_ (self : ref) (cs : list string) : M unit :=
  fun h => (update h self (mkEstimator (Some cs) (stats_ (h self))), Ok tt).

Definition set_stats_ (self : ref) (fr : StatsFrame) : M unit :=
  fun h => (update h self (mkEstimator (numerical_columns_ (h self)) (Some fr)), Ok tt).

Declare Scope heap_scope.
Delimit Scope heap_scope with heap.
Notation "x <- c ;; k" := (bindM c (fun x => k))
  (at level 61, c at next level, right associativity) : heap_scope.
Notation "c ;; k" := (bindM c (fun _ => k))
  (at level 61, right associativity) : heap_scope.

Local Open Scope heap_scope.
Local Open Scope string_scope.

(** [self.stats_[name]]. *)
Definition stats_getitem (self : ref) (name : string) : M Series :=
  fr <- get_stats_ self ;;
  lift (getitem_stat fr name).

(** [self.stats_[name] = s]: the frame held by [self] gains (or
    replaces) the column [name]. *)
Definition stats_setitem (self : ref) (name : string) (s : Series) : M unit :=
  fr <- get_stats_ self ;;
  set_stats_ self (setitem_stat fr name s).

(** The [numerical_columns] argument of [fit]: a [str] or a list. *)
Inductive columns_arg : Type :=
| Name (c : string)
| Names (cs : list string).

(** [df[self.numerical_columns_].quantile(q)]. *)
Definition selected_quantile (self : ref) (df : DataFrame) (q : float) : M Series :=
  cs <- get_numerical_columns_ self ;;
  sub <- lift (getitem_list df cs) ;;
  lift (quantile sub q).

(** [OutlierRemoverIQR.fit], statement by statement. *)
Definition fit (self : ref) (df : DataFrame) (numerical_columns : columns_arg)
  : M ref :=
  match numerical_columns with
  | Name c => set_numerical_columns_ self [c]
  | Names cs => set_numerical_columns_ self cs
  end ;;
  idx <- get_numerical_columns_ self ;;
  set_stats_ self (empty_frame idx) ;;
  q1 <- selected_quantile self df 0.25%float ;;
  stats_setitem self "Q1" q1 ;;
  q3 <- selected_quantile self df 0.75%float ;;
  stats_setitem self "Q3" q3 ;;
  a <- stats_getitem self "Q3" ;;
  b <- stats_getitem self "Q1" ;;
  stats_setitem self "IQR" (series_sub a b) ;;
  a <- stats_getitem self "Q1" ;;
  b <- stats_getitem self "IQR" ;;
  stats_setitem self "lower_cutoff" (series_sub a (scalar_mul 1.5%float b)) ;;
  a <- stats_getitem self "Q3" ;;
  b <- stats_getitem self "IQR" ;;
  stats_setitem self "upper_cutoff" (series_add a (scalar_mul 1.5%float b)) ;;
  ret self.

(** [df[self.numerical_columns_] >= self.stats_[name]] (and [<=]). *)
Definition compare_selected (op : float -> float -> bool) (self : ref)
           (df : DataFrame) (name : string) : M (list (list bool)) :=
  cs <- get_numerical_columns_ self ;;
  sub <- lift (getitem_list df cs) ;;
  cut <- stats_getitem self name ;;
  lift (cmp_frame op sub cut).

(** [OutlierRemoverIQR.transform]. *)
Definition transform (self : ref) (df : DataFrame) : M DataFrame :=
  above <- compare_selected ge self df "lower_cutoff" ;;
  below <- compare_selected le self df "upper_cutoff" ;;
  let masks := frame_and above below in
  let final_mask := all_axis1 masks in
  ret (getitem_mask df final_mask).

(** *** Reading a fitted state *)

(** The value stored in the statistics frame of [e] for the statistic
    [name] and the selected column at position [k]. *)
Definition stat_at (e : OutlierRemoverIQR) (name : string) (k : nat) : option float :=
  match stats_ e with
  | Some fr => match assoc_get name (st_data fr) with
               | Some vs => nth_error vs k
               | None => None
               end
  | None => None
  end.

(** *** The statistics of one column, by the formulas of the data model *)

Definition numbers (cs : list cell) : list float :=
  flat_map (fun c => match c with Num x => [x] | Obj _ => [] end) cs.

(** The values of the column called [c] in [df]. *)
Definition column (df : DataFrame) (c : string) : list float :=
  numbers (map (fun r => at_label (columns df) r c) (rows df)).

Definition Q1_of (df : DataFrame) (c : string) : float :=
  quantile_1d 0.25%float (column df c).
Definition Q3_of (df : DataFrame) (c : string) : float :=
  quantile_1d 0.75%float (column df c).
Definition IQR_of (df : DataFrame) (c : string) : float :=
  (Q3_of df c - Q1_of df c)%float.
Definition lower_cutoff_of (df : DataFrame) (c : string) : float :=
  (Q1_of df c - 1.5 * IQR_of df c)%float.
Definition upper_cutoff_of (df : DataFrame) (c : string) : float :=
  (Q3_of df c + 1.5 * IQR_of df c)%float.

(** A cell lies within [[lo, hi]], both bounds included. *)
Definition within (lo hi : float) (c : cell) : bool :=
  match c with
  | Num x => ((lo <=? x) && (x <=? hi))%float
  | Obj _ => false
  end.

(** The keep decision of a row of a frame with columns [cols], for the
    selected columns [cs] and cutoffs learnt from [reference]. *)
Definition keep_row (reference : DataFrame) (cs : list string)
           (cols : list string) (r : Row) : bool :=
  forallb (fun c => within (lower_cutoff_of reference c) (upper_cutoff_of reference c)
                           (at_label cols r c)) cs.

(** [l1] is [l2] with some elements left out, the others in order. *)
Inductive subsequence {A} : list A -> list A -> Prop :=
| sub_nil : subsequence [] []
| sub_skip x l1 l2 : subsequence l1 l2 -> subsequence l1 (x :: l2)
| sub_take x l1 l2 : subsequence l1 l2 -> subsequence (x :: l1) (x :: l2).

(** The selected-column list after normalising the argument of [fit]. *)
Definition normalize (a : columns_arg) : list string :=
  match a with
  | Name c => [c]
  | Names cs => cs
  end.

(** *** The decision read off a state *)

(** The decision for the cells of a row under the selected columns,
    against the stored cutoffs, position by position. *)
Fixpoint in_bounds (cs : list cell) (lo hi : list float) : bool :=
  match cs, lo, hi with
  | c :: cs', l :: lo', h :: hi' => within l h c && in_bounds cs' lo' hi'
  | _, _, _ => true
  end.

(** The combined keep decision of the state [e] for a row [r] of a
    frame with columns [cols]. *)
Definition decision (e : OutlierRemoverIQR) (cols : list string) (r : Row) : bool :=
  match numerical_columns_ e, stats_ e with
  | Some cs, Some fr =>
      match assoc_get "lower_cutoff" (st_data fr), assoc_get "upper_cutoff" (st_data fr) with
      | Some lo, Some hi => in_bounds (map (at_label cols r) cs) lo hi
      | _, _ => false
      end
  | _, _ => false
  end.

Definition is_num (c : cell) : bool :=
  match c with Num _ => true | Obj _ => false end.

(** The column called [c] of [df] holds numbers only. *)
Definition numeric_column (df : DataFrame) (c : string) : bool :=
  forallb (fun r => is_num (at_label (columns df) r c)) (rows df).

(** The state that the formulas of the data model prescribe for the
    selected columns [cs] of [reference]. *)
Definition fitted_state (reference : DataFrame) (cs : list string) : OutlierRemoverIQR :=
  mkEstimator (Some cs)
    (Some (mkStats cs
             [("Q1", map (Q1_of reference) cs);
              ("Q3", map (Q3_of reference) cs);
              ("IQR", map (IQR_of reference) cs);
              ("lower_cutoff", map (lower_cutoff_of reference) cs);
              ("upper_cutoff", map (upper_cutoff_of reference) cs)])).

(** The state left behind by a [fit] that raised while computing the
    quantiles: the column list and a frame without statistics. *)
Definition interrupted_state (cs : list string) : OutlierRemoverIQR :=
  mkEstimator (Some cs) (Some (empty_frame cs)).

(** [m], started in a heap where [self] holds [e], ends with result
    [r], leaves [e'] in [self] and leaves every other object alone. *)
Definition runs_to {A} (m : M A) (self : ref) (e e' : OutlierRemoverIQR)
           (r : result A) : Prop :=
  forall h, h self = e ->
            snd (m h) = r /\ fst (m h) self = e' /\
            forall o, o <> self -> fst (m h) o = h o.

End Preprocessing.

(* ------------------------------------------------------------------ *)
(** ** utils/visualization/correlation.py: plot_high_correlation_scatter *)

Module Correlation.

Local Open Scope py_scope.

(** A correlation matrix as a frame of floats: its column labels and
    its rows of values. *)
Record CorrMatrix : Type :=
  mkCorr { cm_columns : list string; cm_values : list (list float) }.

(** The matrix has one row per column and one value per column in each
    row. *)
Definition square (cm : CorrMatrix) : Prop :=
  List.length (cm_values cm) = List.length (cm_columns cm) /\
  Forall (fun row => List.length row = List.length (cm_columns cm)) (cm_values cm).

(** [correlation_matrix.iloc[i, j]]. *)
Definition iloc (cm : CorrMatrix) (i j : nat) : result float :=
  match nth_error (cm_values cm) i with
  | Some row => match nth_error row j with
                | Some v => Ok v
                | None => Raise IndexError
                end
  | None => Raise IndexError
  end.

Definition triple : Type := (string * string * float)%type.

(** [cols[i]] for a position inside the index. *)
Definition col (cm : CorrMatrix) (i : nat) : string :=
  nth i (cm_columns cm) EmptyString.

(** The inner loop, [for j in range(i + 1, len(cols))], over the list
    [js] of values of [j]; [corr_pairs] is the list built so far. *)
Fixpoint for_j (cm : CorrMatrix) (threshold : float) (i : nat) (js : list nat)
         (corr_pairs : list triple) : result (list triple) :=
  match js with
  | [] => Ok corr_pairs
  | j :: js' =>
      val <- iloc cm i j ;;
      for_j cm threshold i js'
            (if (threshold <=? abs val)%float
             then corr_pairs ++ [(col cm i, col cm j, val)]
             else corr_pairs)
  end.

(** The outer loop, [for i in range(len(cols))]. *)
Fixpoint for_i (cm : CorrMatrix) (threshold : float) (rows_i : list nat)
         (corr_pairs : list triple) : result (list triple) :=
  match rows_i with
  | [] => Ok corr_pairs
  | i :: rows_i' =>
      let n := List.length (cm_columns cm) in
      corr_pairs' <- for_j cm threshold i (seq (S i) (n - S i)) corr_pairs ;;
      for_i cm threshold rows_i' corr_pairs'
  end.

Section Plot.

(** Everything after the selection of the pairs draws the grid of
    scatter plots with matplotlib and seaborn; it is taken as given.
    [draw df corr_pairs n_rows n_cols] stands for lines 134-179 of
    the source: it returns nothing and may raise. *)
Variable draw : DataFrame -> list triple -> Z -> Z -> result unit.

(** [plot_high_correlation_scatter].  The message printed when no
    pair is found is not part of the result and is left out;
    [n_rows] is the ceiling division of the source, which raises on
    [n_cols = 0]. *)
Definition plot_high_correlation_scatter (df : DataFrame) (cm : CorrMatrix)
           (threshold : float) (n_cols : Z) : result (list triple) :=
  corr_pairs <- for_i cm threshold (seq O (List.length (cm_columns cm))) [] ;;
  match corr_pairs with
  | [] => Ok []
  | _ =>
      let n_plots := Z.of_nat (List.length corr_pairs) in
      n_rows <- (if Z.eqb n_cols 0 then Raise ZeroDivisionError
                 else Ok ((n_plots + n_cols - 1) / n_cols)%Z) ;;
      _ <- draw df corr_pairs n_rows n_cols ;;
      Ok corr_pairs
  end.

End Plot.

(** *** The selection in the words of the interface *)

(** The positions of the strict upper triangle of an [n] by [n] matrix,
    row by row. *)
Definition upper_triangle (n : nat) : list (nat * nat) :=
  flat_map (fun i => map (fun j => (i, j)) (seq (S i) (n - S i))) (seq O n).

Definition entry (cm : CorrMatrix) (i j : nat) : float :=
  nth j (nth i (cm_values cm) []) nan.

(** The triples of the strict upper triangle whose correlation has
    absolute value at least [threshold]. *)
Definition high_pairs (cm : CorrMatrix) (threshold : float) : list triple :=
  map (fun '(i, j) => (col cm i, col cm j, entry cm i j))
      (filter (fun '(i, j) => (threshold <=? abs (entry cm i j))%float)
              (upper_triangle (List.length (cm_columns cm)))).

(** The triples of row [i] at or above the threshold among the columns
    [js]. *)
Definition selected (cm : CorrMatrix) (threshold : float) (i : nat) (js : list nat)
  : list triple :=
  map (fun '(i, j) => (col cm i, col cm j, entry cm i j))
      (filter (fun '(i, j) => (threshold <=? abs (entry cm i j))%float)
              (map (fun j => (i, j)) js)).

End Correlation.

(* ------------------------------------------------------------------ *)
(** ** [transform] on frames with nullable columns

    [Pandas.cell] models the numpy-backed columns ([float64], [object]),
    where a missing number is NaN.  pandas also has nullable columns
    ([Float64], [Int64]), where a missing value is [pd.NA]: comparing it
    gives [<NA>] rather than false, [&] is three-valued, and
    [all(axis=1)] skips [<NA>] (its default, [skipna=True]).  The same
    source lines of [transform] are embedded here over such frames; the
    estimator, its heap and the statistics stored by [fit] are those of
    [Preprocessing]. *)

Module Nullable.

Import Preprocessing.

Local Open Scope string_scope.

(** A cell of a frame that may have nullable columns: a number, the
    missing value [pd.NA], or a value of an [object] column. *)
Inductive ncell : Type :=
| NNum (x : float)
| NNA
| NObj (s : string).

Record NRow : Type := mkNRow { nlabel : Z; ncells : list ncell }.

Record NFrame : Type := mkNFrame { ncolumns : list string; nrows : list NRow }.

(** The cell of row [r] under the column called [c]. *)
Definition ncell_at (cols : list string) (r : NRow) (c : string) : ncell :=
  match get_loc c cols with
  | Some p => nth p (ncells r) (NNum nan)
  | None => NNum nan
  end.

(** [df[cs]] with a list of labels. *)
Definition getitem_list (df : NFrame) (cs : list string) : result NFrame :=
  match filter (fun c => negb (has_column (ncolumns df) c)) cs with
  | [] => Ok (mkNFrame cs (map (fun r => mkNRow (nlabel r) (map (ncell_at (ncolumns df) r) cs))
                               (nrows df)))
  | missing => Raise (KeyError missing)
  end.

(** Comparing a cell with a number: [None] stands for [<NA>]. *)
Definition cmp_cell (op : float -> float -> bool) (c : ncell) (v : float)
  : result (option bool) :=
  match c with
  | NNum x => Ok (Some (op x v))
  | NNA => Ok None
  | NObj _ => Raise TypeError
  end.

Fixpoint cmp_cells (op : float -> float -> bool) (cs : list ncell) (vs : list float)
  : result (list (option bool)) :=
  match cs, vs with
  | c :: cs', v :: vs' =>
      Py.bind (cmp_cell op c v) (fun b =>
      Py.bind (cmp_cells op cs' vs') (fun bs => Ok (b :: bs)))
  | _, _ => Ok []
  end.

(** [df >= s] and [df <= s] for a frame and a Series of floats. *)
Definition cmp_frame (op : float -> float -> bool) (df : NFrame) (s : Series)
  : result (list (list (option bool))) :=
  if list_string_eqb (ncolumns df) (s_index s) then
    mapM (fun r => cmp_cells op (ncells r) (s_values s)) (nrows df)
  else Raise ValueError.

(** [a & b] on nullable booleans: false wins over [<NA>]. *)
Definition and3 (a b : option bool) : option bool :=
  match a, b with
  | Some false, _ => Some false
  | _, Some false => Some false
  | Some true, Some true => Some true
  | _, _ => None
  end.

Definition frame_and (a b : list (list (option bool))) : list (list (option bool)) :=
  zip_with (zip_with and3) a b.

(** [masks.all(axis=1)] with [skipna=True]: true unless an entry of the
    row is false; [<NA>] entries are skipped. *)
Definition all_axis1 (m : list (list (option bool))) : list bool :=
  map (forallb (fun b => match b with Some false => false | _ => true end)) m.

(** [df[mask]]. *)
Fixpoint select_rows (mask : list bool) (rs : list NRow) : list NRow :=
  match mask, rs with
  | b :: mask', r :: rs' =>
      if b then r :: select_rows mask' rs' else select_rows mask' rs'
  | _, _ => []
  end.

Definition getitem_mask (df : NFrame) (mask : list bool) : NFrame :=
  mkNFrame (ncolumns df) (select_rows mask (nrows df)).

Local Open Scope heap_scope.

(** [df[self.numerical_columns_] >= self.stats_[name]] (and [<=]). *)
Definition compare_selected (op : float -> float -> bool) (self : ref)
           (df : NFrame) (name : string) : M (list (list (option bool))) :=
  cs <- get_numerical_columns_ self ;;
  sub <- lift (getitem_list df cs) ;;
  cut <- stats_getitem self name ;;
  lift (cmp_frame op sub cut).

(** [OutlierRemoverIQR.transform] on a frame with nullable columns. *)
Definition transform (self : ref) (df : NFrame) : M NFrame :=
  above <- compare_selected ge self df "lower_cutoff" ;;
  below <- compare_selected le self df "upper_cutoff" ;;
  let masks := frame_and above below in
  let final_mask := all_axis1 masks in
  ret (getitem_mask df final_mask).

(** The check of one cell as [transform] ends up applying it: a number
    must lie within [[lo, hi]], a [pd.NA] passes. *)
Definition nwithin (lo hi : float) (c : ncell) : bool :=
  match c with
  | NNum x => ((lo <=? x) && (x <=? hi))%float
  | NNA => true
  | NObj _ => false
  end.

(** A numpy-backed frame seen as a frame without [pd.NA]. *)
Definition of_cell (c : cell) : ncell :=
  match c with
  | Num x => NNum x
  | Obj s => NObj s
  end.

Definition of_row (r : Row) : NRow := mkNRow (label r) (map of_cell (cells r)).

Definition of_frame (df : DataFrame) : NFrame :=
  mkNFrame (columns df) (map of_row (rows df)).

End Nullable.

(* ------------------------------------------------------------------ *)
(** ** Sample data *)

Module Samples.

Local Open Scope string_scope.
Local Open Scope float_scope.

(** A frame with the single column [name] holding [vs], labelled
    0, 1, 2, ... *)
Definition single_column (name : string) (vs : list float) : DataFrame :=
  mkDF [name]
       (map (fun '(i, v) => mkRow (Z.of_nat i) [Num v])
            (combine (seq O (List.length vs)) vs)).

(** The column [[1,2,3,4,5,6,7,8,9,100]]. *)
Definition ten_values : DataFrame :=
  single_column "x" [1; 2; 3; 4; 5; 6; 7; 8; 9; 100].

(** Its first nine rows. *)
Definition nine_values : DataFrame :=
  single_column "x" [1; 2; 3; 4; 5; 6; 7; 8; 9].

(** The column [[10,12,12,13,12,11,100]]. *)
Definition seven_values : DataFrame :=
  single_column "x" [10; 12; 12; 13; 12; 11; 100].

(** Two numeric columns and a categorical one; the second row is out
    of range on [x] only, the last one has no value for [y]. *)
Definition patients : DataFrame :=
  mkDF ["x"; "y"; "sex"]
       [mkRow 0 [Num 1; Num 10; Obj "F"];
        mkRow 1 [Num 100; Num 11; Obj "M"];
        mkRow 2 [Num 2; Num 12; Obj "F"];
        mkRow 3 [Num 3; Num 11; Obj "M"];
        mkRow 4 [Num 2; Num 10; Obj "F"];
        mkRow 5 [Num 2; Num nan; Obj "M"]].


(** A heap of estimators that were never fitted. *)
Definition fresh_heap : Preprocessing.Heap := fun _ => Preprocessing.unfitted.

(** The heap after estimator 0 has been fitted on the columns [x] and
    [y] of [patients]. *)
Definition fitted_heap : Preprocessing.Heap :=
  fst (Preprocessing.fit O patients (Preprocessing.Names ["x"; "y"]) fresh_heap).

(** A drawing step that never raises. *)
Definition draw_nothing (df : DataFrame) (pairs : list Correlation.triple)
           (n_rows n_cols : Z) : result unit := Ok tt.

(** A 3 by 3 correlation matrix. *)
Definition corr3 : Correlation.CorrMatrix :=
  Correlation.mkCorr ["a"; "b"; "c"]
                     [[1; 0.75; 0.125]; [0.75; 1; -0.625]; [0.125; -0.625; 1]].

End Samples.

(* ------------------------------------------------------------------ *)
(** ** More sample data *)

Module MoreSamples.

Local Open Scope string_scope.
Local Open Scope float_scope.

(** [patients] with a text entry in the column [x]. *)
Definition patients_text : DataFrame :=
  mkDF ["x"; "y"; "sex"]
       [mkRow 0 [Num 1; Num 10; Obj "F"];
        mkRow 1 [Obj "n/a"; Num 11; Obj "M"]].

(** A frame without the column [y]. *)
Definition only_x : DataFrame :=
  mkDF ["x"; "sex"] [mkRow 0 [Num 1; Obj "F"]; mkRow 1 [Num 2; Obj "M"]].



(** The heap after estimator 0, fitted on [patients], has been fitted
    again on a column that [patients] does not have. *)
Definition broken_heap : Preprocessing.Heap :=
  fst (Preprocessing.fit O Samples.patients (Preprocessing.Name "age")
                         Samples.fitted_heap).

(** Two chunks of [patients]. *)
Definition chunk1 : list Row :=
  [mkRow 0 [Num 1; Num 10; Obj "F"]; mkRow 1 [Num 100; Num 11; Obj "M"]].
Definition chunk2 : list Row :=
  [mkRow 2 [Num 2; Num 12; Obj "F"]; mkRow 5 [Num 2; Num nan; Obj "M"]].

(** A matrix whose second row is too short. *)
Definition ragged : Correlation.CorrMatrix :=
  Correlation.mkCorr ["a"; "b"; "c"] [[1; 0.75; 0.125]; [0.75; 1]; [0.125; -0.625; 1]].

(** [corr3] with another diagonal and another lower triangle. *)
Definition corr3_upper : Correlation.CorrMatrix :=
  Correlation.mkCorr ["a"; "b"; "c"] [[0; 0.75; 0.125]; [nan; 0; -0.625]; [7; 8; 0]].

(** A matrix with an undefined correlation. *)
Definition corr_nan : Correlation.CorrMatrix :=
  Correlation.mkCorr ["a"; "b"] [[1; nan]; [nan; 1]].

(** A drawing step that always raises. *)
Definition draw_fails (df : DataFrame) (pairs : list Correlation.triple)
           (n_rows n_cols : Z) : result unit := Raise ValueError.




End MoreSamples.

(* ================================================================== *)
(** * Properties *)

Import Preprocessing.

(** ** Results *)

Section PyFacts.

Context {A B : Type}.

Lemma mapM_map {C} (f : A -> result B) (g : C -> A) (l : list C) :
  mapM f (map g l) = mapM (fun c => f (g c)) l.
Proof.
  induction l as [|c l IH]; simpl; [reflexivity|]. rewrite IH; reflexivity.
Qed.

(** A traversal that succeeds on a list succeeds on each of its
    filtered sublists. *)
Lemma mapM_filter (f : A -> result B) (p : A -> bool) (l : list A) (bs : list B) :
  mapM f l = Ok bs -> exists bs', mapM f (filter p l) = Ok bs'.
Proof.
  revert bs; induction l as [|a l IH]; simpl; intros bs H.
  - exists []; reflexivity.
  - destruct (f a) eqn:Ea; simpl in H; [|discriminate].
    destruct (mapM f l) eqn:El; simpl in H; [|discriminate].
    destruct (IH _ eq_refl) as [bs' Hbs'].
    destruct (p a); simpl.
    + rewrite Ea, Hbs'; simpl. eexists; reflexivity.
    + exists bs'; assumption.
Qed.

End PyFacts.

Lemma mapM_seq_nth {A B} (d : A) (F : nat -> result B) (G : A -> result B) (l : list A) :
  (forall p, p < List.length l -> F p = G (nth p l d)) ->
  mapM F (seq O (List.length l)) = mapM G l.
Proof.
  cut (forall k pre, (forall p, p < List.length l -> F (k + p) = G (nth p l d)) ->
                     pre = k -> mapM F (seq k (List.length l)) = mapM G l).
  { intros H Hp. apply (H O O); auto. }
  induction l as [|a l IH]; intros k pre H _; simpl; [reflexivity|].
  assert (Ha : F k = G a).
  { rewrite <- (Nat.add_0_r k). apply (H O). simpl; lia. }
  rewrite Ha, (IH (S k) (S k)); [reflexivity| |reflexivity].
  intros p Hp. replace (S k + p) with (k + S p) by lia.
  apply (H (S p)). simpl; lia.
Qed.

(** ** Frames *)

Section FrameFacts.

Local Open Scope float_scope.

Lemma list_string_eqb_eq (a b : list string) :
  list_string_eqb a b = true <-> a = b.
Proof.
  unfold list_string_eqb. destruct (list_eq_dec string_dec a b); split; congruence.
Qed.

(** [df[cs]] succeeds or fails by the column labels alone. *)
Lemma getitem_list_columns (df df' : DataFrame) (cs : list string) (sub : DataFrame) :
  getitem_list df cs = Ok sub ->
  columns df' = columns df ->
  getitem_list df' cs =
    Ok (mkDF cs (map (fun r => mkRow (label r) (map (at_label (columns df) r) cs))
                     (rows df'))).
Proof.
  unfold getitem_list. intros H E. rewrite E.
  destruct (filter _ cs); [reflexivity|discriminate].
Qed.

Lemma getitem_list_inv (df : DataFrame) (cs : list string) (sub : DataFrame) :
  getitem_list df cs = Ok sub ->
  sub = mkDF cs (map (fun r => mkRow (label r) (map (at_label (columns df) r) cs))
                     (rows df)).
Proof.
  intros H. pose proof (getitem_list_columns df df cs sub H eq_refl) as H'.
  rewrite H in H'. inversion H'; reflexivity.
Qed.

(** The two comparisons of a row, combined and reduced, are the
    position-wise range check. *)
Lemma cmp_cells_in_bounds (cs : list cell) (lo hi : list float) (a b : list bool) :
  cmp_cells ge cs lo = Ok a ->
  cmp_cells le cs hi = Ok b ->
  forallb (fun x => x) (zip_with andb a b) = in_bounds cs lo hi.
Proof.
  revert lo hi a b; induction cs as [|c cs IH]; intros lo hi a b Ha Hb.
  - simpl in Ha, Hb. inversion Ha; inversion Hb; reflexivity.
  - destruct lo as [|l lo]; [simpl in Ha; inversion Ha; reflexivity|].
    destruct hi as [|h hi];
      [simpl in Hb; inversion Hb; destruct a; reflexivity|].
    simpl in Ha, Hb. destruct c as [x|s]; simpl in Ha, Hb; [|discriminate].
    destruct (cmp_cells ge cs lo) as [a'|] eqn:Ea; simpl in Ha; [|discriminate].
    destruct (cmp_cells le cs hi) as [b'|] eqn:Eb; simpl in Hb; [|discriminate].
    inversion Ha; inversion Hb; subst. simpl.
    rewrite (IH _ _ _ _ Ea Eb). reflexivity.
Qed.

(** Selecting by the reduced conjunction of two row-wise traversals is
    filtering by the decision they compute. *)
Lemma select_rows_filter (f g : Row -> result (list bool)) (k : Row -> bool)
      (rs : list Row) (a b : list (list bool)) :
  mapM f rs = Ok a ->
  mapM g rs = Ok b ->
  (forall r x y, In r rs -> f r = Ok x -> g r = Ok y ->
                 forallb (fun z => z) (zip_with andb x y) = k r) ->
  select_rows (all_axis1 (frame_and a b)) rs = filter k rs.
Proof.
  unfold all_axis1, frame_and.
  revert a b; induction rs as [|r rs IH]; intros a b Ha Hb Hk.
  - simpl in Ha, Hb. inversion Ha; inversion Hb; reflexivity.
  - simpl in Ha, Hb.
    destruct (f r) as [x|] eqn:Ef; simpl in Ha; [|discriminate].
    destruct (mapM f rs) as [a'|] eqn:Ea; simpl in Ha; [|discriminate].
    destruct (g r) as [y|] eqn:Eg; simpl in Hb; [|discriminate].
    destruct (mapM g rs) as [b'|] eqn:Eb; simpl in Hb; [|discriminate].
    inversion Ha; inversion Hb; subst. simpl.
    rewrite (Hk r x y (or_introl eq_refl) Ef Eg).
    rewrite (IH a' b' eq_refl eq_refl);
      [reflexivity | intros; eapply Hk; eauto; right; assumption].
Qed.

Lemma filter_subsequence {A} (p : A -> bool) (l : list A) :
  subsequence (filter p l) l.
Proof.
  induction l as [|a l IH]; simpl; [constructor|].
  destruct (p a); constructor; assumption.
Qed.

Lemma filter_idem {A} (p : A -> bool) (l : list A) :
  filter p (filter p l) = filter p l.
Proof.
  induction l as [|a l IH]; simpl; [reflexivity|].
  destruct (p a) eqn:E; simpl; [rewrite E, IH|]; auto.
Qed.

Lemma filter_all {A} (p : A -> bool) (l : list A) :
  (forall a, In a l -> p a = true) -> filter p l = l.
Proof.
  induction l as [|a l IH]; simpl; intros H; [reflexivity|].
  rewrite (H a (or_introl eq_refl)), IH; auto.
Qed.

End FrameFacts.

(** ** The estimator *)

Section EstimatorFacts.

Local Open Scope string_scope.

Lemma update_same (h : Heap) (o : ref) (e : OutlierRemoverIQR) :
  update h o e o = e.
Proof. unfold update. rewrite Nat.eqb_refl. reflexivity. Qed.

Lemma update_other (h : Heap) (o o' : ref) (e : OutlierRemoverIQR) :
  o' <> o -> update h o e o' = h o'.
Proof.
  intros H. unfold update. destruct (Nat.eqb_spec o' o); [contradiction|reflexivity].
Qed.

(** The comparison against a stored cutoff never touches the heap. *)
Lemma compare_selected_heap (op : float -> float -> bool) (self : ref)
      (df : DataFrame) (name : string) (h : Heap) :
  fst (compare_selected op self df name h) = h.
Proof.
  unfold compare_selected, stats_getitem, get_numerical_columns_,
    get_stats_, lift, bindM.
  destruct (numerical_columns_ (h self)); [|reflexivity].
  destruct (getitem_list df l); [|reflexivity].
  destruct (stats_ (h self)); [|reflexivity].
  destruct (getitem_stat s name); reflexivity.
Qed.

(** What a successful comparison has read and computed. *)
Lemma compare_selected_Ok_inv (op : float -> float -> bool) (self : ref)
      (df : DataFrame) (name : string) (h h' : Heap) (m : list (list bool)) :
  compare_selected op self df name h = (h', Ok m) ->
  exists cs fr vs,
    numerical_columns_ (h self) = Some cs /\
    stats_ (h self) = Some fr /\
    assoc_get name (st_data fr) = Some vs /\
    st_index fr = cs /\
    getitem_list df cs =
      Ok (mkDF cs (map (fun r => mkRow (label r) (map (at_label (columns df) r) cs))
                       (rows df))) /\
    mapM (fun r => cmp_cells op (map (at_label (columns df) r) cs) vs) (rows df) = Ok m.
Proof.
  unfold compare_selected, stats_getitem, get_numerical_columns_,
    get_stats_, getitem_stat, lift, bindM.
  destruct (numerical_columns_ (h self)) as [cs|] eqn:Ecs; [|intros H; inversion H].
  destruct (getitem_list df cs) as [sub|] eqn:Esub; [|intros H; inversion H].
  pose proof (getitem_list_inv _ _ _ Esub) as ->.
  destruct (stats_ (h self)) as [fr|] eqn:Efr; [|intros H; inversion H].
  destruct (assoc_get name (st_data fr)) as [vs|] eqn:Evs; [|intros H; inversion H].
  unfold cmp_frame. simpl columns. simpl s_index.
  destruct (list_string_eqb cs (st_index fr)) eqn:Eidx; [|intros H; inversion H].
  simpl rows. simpl s_values. rewrite mapM_map. simpl cells.
  intros H; inversion H; subst.
  apply list_string_eqb_eq in Eidx.
  exists cs, fr, vs. repeat split; auto.
Qed.

(** Conversely, these facts make the comparison succeed. *)
Lemma compare_selected_Ok_intro (op : float -> float -> bool) (self : ref)
      (df sub : DataFrame) (name : string) (h : Heap) (m : list (list bool))
      (cs : list string) (fr : StatsFrame) (vs : list float) :
  numerical_columns_ (h self) = Some cs ->
  stats_ (h self) = Some fr ->
  assoc_get name (st_data fr) = Some vs ->
  st_index fr = cs ->
  getitem_list df cs = Ok sub ->
  mapM (fun r => cmp_cells op (map (at_label (columns df) r) cs) vs) (rows df) = Ok m ->
  compare_selected op self df name h = (h, Ok m).
Proof.
  intros Hcs Hfr Hvs Hidx Hsub Hm.
  unfold compare_selected, stats_getitem, get_numerical_columns_,
    get_stats_, getitem_stat, lift, bindM.
  rewrite Hcs, Hsub. pose proof (getitem_list_inv _ _ _ Hsub) as ->.
  rewrite Hfr, Hvs. unfold cmp_frame. simpl columns. simpl s_index.
  replace (list_string_eqb cs (st_index fr)) with true
    by (symmetry; apply list_string_eqb_eq; auto).
  simpl rows. simpl s_values. rewrite mapM_map. simpl cells.
  rewrite Hm. reflexivity.
Qed.

(** [transform] never touches the heap, whether it returns or raises. *)
Lemma transform_heap (self : ref) (df : DataFrame) (h : Heap) :
  fst (transform self df h) = h.
Proof.
  unfold transform, bindM, ret.
  pose proof (compare_selected_heap ge self df "lower_cutoff" h) as H1.
  destruct (compare_selected ge self df "lower_cutoff" h) as [h1 [a|e]];
    simpl in H1; subst h1; [|reflexivity].
  pose proof (compare_selected_heap le self df "upper_cutoff" h) as H2.
  destruct (compare_selected le self df "upper_cutoff" h) as [h2 [b|e]];
    simpl in H2; subst h2; reflexivity.
Qed.

(** What a successful [transform] has read and computed. *)
Lemma transform_Ok_inv (self : ref) (df out : DataFrame) (h h' : Heap) :
  transform self df h = (h', Ok out) ->
  exists cs fr lo hi a b,
    numerical_columns_ (h self) = Some cs /\
    stats_ (h self) = Some fr /\
    assoc_get "lower_cutoff" (st_data fr) = Some lo /\
    assoc_get "upper_cutoff" (st_data fr) = Some hi /\
    st_index fr = cs /\
    getitem_list df cs =
      Ok (mkDF cs (map (fun r => mkRow (label r) (map (at_label (columns df) r) cs))
                       (rows df))) /\
    mapM (fun r => cmp_cells ge (map (at_label (columns df) r) cs) lo) (rows df) = Ok a /\
    mapM (fun r => cmp_cells le (map (at_label (columns df) r) cs) hi) (rows df) = Ok b /\
    out = getitem_mask df (all_axis1 (frame_and a b)).
Proof.
  unfold transform, bindM, ret.
  pose proof (compare_selected_heap ge self df "lower_cutoff" h) as H1.
  destruct (compare_selected ge self df "lower_cutoff" h) as [h1 [a|e]] eqn:E1;
    simpl in H1; subst h1; [|intros H; inversion H].
  destruct (compare_selected le self df "upper_cutoff" h) as [h2 [b|e]] eqn:E2;
    [|intros H; inversion H].
  intros H; inversion H; subst.
  apply compare_selected_Ok_inv in E1 as (cs & fr & lo & Hcs & Hfr & Hlo & Hidx & Hsub & Ha).
  apply compare_selected_Ok_inv in E2 as (cs' & fr' & hi & Hcs' & Hfr' & Hhi & _ & _ & Hb).
  rewrite Hcs in Hcs'; inversion Hcs'; subst cs'.
  rewrite Hfr in Hfr'; inversion Hfr'; subst fr'.
  exists cs, fr, lo, hi, a, b. repeat split; auto.
Qed.

(** The rows of a successful [transform] are the rows of the input
    that the state's decision keeps. *)
Lemma transform_Ok_filter (self : ref) (df out : DataFrame) (h h' : Heap) :
  transform self df h = (h', Ok out) ->
  out = mkDF (columns df) (filter (decision (h self) (columns df)) (rows df)).
Proof.
  intros H.
  apply transform_Ok_inv in H
    as (cs & fr & lo & hi & a & b & Hcs & Hfr & Hlo & Hhi & Hidx & Hsub & Ha & Hb & ->).
  unfold getitem_mask. f_equal.
  apply (select_rows_filter _ _ _ _ _ _ Ha Hb).
  intros r x y _ Hx Hy. unfold decision. rewrite Hcs, Hfr, Hlo, Hhi.
  apply cmp_cells_in_bounds; assumption.
Qed.

End EstimatorFacts.

(** ** Quantiles and [fit] *)

Section FitFacts.

Local Open Scope string_scope.

Lemma as_float_mapM (l : list cell) :
  mapM as_float l = if forallb is_num l then Ok (numbers l) else Raise TypeError.
Proof.
  induction l as [|[x|s] l IH]; simpl; [reflexivity| |reflexivity].
  rewrite IH. destruct (forallb is_num l); reflexivity.
Qed.

Lemma mapM_guarded {A B} (P : A -> bool) (f : A -> B) (e : exn) (l : list A) :
  mapM (fun a => if P a then Ok (f a) else Raise e) l =
  if forallb P l then Ok (map f l) else Raise e.
Proof.
  induction l as [|a l IH]; simpl; [reflexivity|].
  rewrite IH. destruct (P a); simpl; [|reflexivity].
  destruct (forallb P l); reflexivity.
Qed.

Lemma forallb_map {A B} (p : B -> bool) (f : A -> B) (l : list A) :
  forallb p (map f l) = forallb (fun a => p (f a)) l.
Proof.
  induction l as [|a l IH]; simpl; [reflexivity|]. rewrite IH; reflexivity.
Qed.

(** [df[cs].quantile(q)]: the quantile of each selected column, or
    [TypeError] when one of them is not numeric. *)
Lemma quantile_selected (df : DataFrame) (cs : list string) (q : float) :
  quantile (mkDF cs (map (fun r => mkRow (label r) (map (at_label (columns df) r) cs))
                         (rows df))) q =
  if forallb (numeric_column df) cs
  then Ok (mkSeries cs (map (fun c => quantile_1d q (column df c)) cs))
  else Raise TypeError.
Proof.
  unfold quantile. simpl columns.
  rewrite (mapM_seq_nth EmptyString _
             (fun c => if numeric_column df c
                       then Ok (quantile_1d q (column df c)) else Raise TypeError)).
  - rewrite mapM_guarded. destruct (forallb (numeric_column df) cs); reflexivity.
  - intros p Hp. unfold column_at. simpl rows. rewrite map_map.
    unfold iat. simpl cells.
    rewrite (map_ext _ (fun r => at_label (columns df) r (nth p cs EmptyString))).
    + rewrite as_float_mapM, forallb_map. unfold numeric_column, column.
      destruct (forallb _ (rows df)); reflexivity.
    + intros r. rewrite (nth_indep _ _ (at_label (columns df) r EmptyString))
        by (rewrite length_map; assumption).
      apply map_nth.
Qed.

Lemma getitem_list_has (df : DataFrame) (cs : list string) :
  getitem_list df cs =
  if forallb (has_column (columns df)) cs
  then Ok (mkDF cs (map (fun r => mkRow (label r) (map (at_label (columns df) r) cs))
                        (rows df)))
  else Raise (KeyError (filter (fun c => negb (has_column (columns df) c)) cs)).
Proof.
  unfold getitem_list.
  destruct (forallb (has_column (columns df)) cs) eqn:E.
  - replace (filter _ cs) with (@nil string); [reflexivity|].
    symmetry. induction cs as [|c cs IH]; [reflexivity|].
    simpl in E |- *. apply andb_true_iff in E as [E1 E2].
    rewrite E1. simpl. apply IH, E2.
  - destruct (filter _ cs) eqn:F; [|reflexivity].
    exfalso. assert (forallb (has_column (columns df)) cs = true); [|congruence].
    clear E. induction cs as [|c cs IH]; [reflexivity|].
    simpl in F |- *. destruct (has_column (columns df) c); simpl in F;
      [apply IH, F | discriminate].
Qed.

Lemma zip_with_map {A B C D} (f : B -> C -> D) (g : A -> B) (k : A -> C) (l : list A) :
  zip_with f (map g l) (map k l) = map (fun a => f (g a) (k a)) l.
Proof.
  induction l as [|a l IH]; simpl; [reflexivity|]. rewrite IH; reflexivity.
Qed.

(** *** Running a method body step by step *)

Lemma runs_bind_ok {A B} (m : M A) (k : A -> M B) (self : ref)
      (e e1 e2 : OutlierRemoverIQR) (a : A) (r : result B) :
  runs_to m self e e1 (Ok a) ->
  runs_to (k a) self e1 e2 r ->
  runs_to (bindM m k) self e e2 r.
Proof.
  intros Hm Hk h Hh. unfold bindM.
  destruct (Hm h Hh) as (Hr & He & Ho).
  destruct (m h) as [h1 r1]. simpl in Hr, He, Ho. subst r1.
  destruct (Hk h1 He) as (Hr' & He' & Ho').
  repeat split; auto. intros o Hne. rewrite Ho', Ho; auto.
Qed.

Lemma runs_bind_raise {A B} (m : M A) (k : A -> M B) (self : ref)
      (e e1 : OutlierRemoverIQR) (x : exn) :
  runs_to m self e e1 (Raise x) ->
  runs_to (bindM m k) self e e1 (Raise x).
Proof.
  intros Hm h Hh. unfold bindM.
  destruct (Hm h Hh) as (Hr & He & Ho).
  destruct (m h) as [h1 r1]. simpl in Hr, He, Ho. subst r1.
  repeat split; auto.
Qed.

Lemma runs_state_eq {A} (m : M A) (self : ref) (e e1 e2 : OutlierRemoverIQR)
      (r : result A) :
  runs_to m self e e1 r -> e1 = e2 -> runs_to m self e e2 r.
Proof. intros H <-; exact H. Qed.

Lemma runs_ret {A} (a : A) (self : ref) (e : OutlierRemoverIQR) :
  runs_to (ret a) self e e (Ok a).
Proof. intros h Hh; repeat split; auto. Qed.

Lemma runs_lift {A} (r : result A) (self : ref) (e : OutlierRemoverIQR) :
  runs_to (lift r) self e e r.
Proof. intros h Hh; repeat split; auto. Qed.

Lemma runs_set_numerical_columns_ (self : ref) (e : OutlierRemoverIQR) (cs : list string) :
  runs_to (set_numerical_columns_ self cs) self e (mkEstimator (Some cs) (stats_ e)) (Ok tt).
Proof.
  intros h Hh. unfold set_numerical_columns_; simpl.
  rewrite update_same, Hh. repeat split; auto.
  intros; apply update_other; assumption.
Qed.

Lemma runs_set_stats_ (self : ref) (e : OutlierRemoverIQR) (fr : StatsFrame) :
  runs_to (set_stats_ self fr) self e (mkEstimator (numerical_columns_ e) (Some fr)) (Ok tt).
Proof.
  intros h Hh. unfold set_stats_; simpl.
  rewrite update_same, Hh. repeat split; auto.
  intros; apply update_other; assumption.
Qed.

Lemma runs_get_numerical_columns_ (self : ref) (e : OutlierRemoverIQR) (cs : list string) :
  numerical_columns_ e = Some cs ->
  runs_to (get_numerical_columns_ self) self e e (Ok cs).
Proof.
  intros H h Hh. unfold get_numerical_columns_. rewrite Hh, H. repeat split; auto.
Qed.

Lemma runs_get_stats_ (self : ref) (e : OutlierRemoverIQR) (fr : StatsFrame) :
  stats_ e = Some fr ->
  runs_to (get_stats_ self) self e e (Ok fr).
Proof.
  intros H h Hh. unfold get_stats_. rewrite Hh, H. repeat split; auto.
Qed.

Lemma runs_stats_getitem (self : ref) (e : OutlierRemoverIQR) (fr : StatsFrame)
      (name : string) :
  stats_ e = Some fr ->
  runs_to (stats_getitem self name) self e e (getitem_stat fr name).
Proof.
  intros H. unfold stats_getitem.
  destruct (getitem_stat fr name) eqn:E.
  - eapply runs_bind_ok; [apply runs_get_stats_; eassumption|].
    rewrite <- E. apply runs_lift.
  - eapply runs_bind_ok; [apply runs_get_stats_; eassumption|].
    rewrite <- E. apply runs_lift.
Qed.

Lemma runs_stats_getitem_ok (self : ref) (e : OutlierRemoverIQR) (fr : StatsFrame)
      (name : string) (vs : list float) :
  stats_ e = Some fr ->
  assoc_get name (st_data fr) = Some vs ->
  runs_to (stats_getitem self name) self e e (Ok (mkSeries (st_index fr) vs)).
Proof.
  intros H Hvs. pose proof (runs_stats_getitem self e fr name H) as R.
  unfold getitem_stat in R. rewrite Hvs in R. exact R.
Qed.

Lemma runs_stats_setitem (self : ref) (e : OutlierRemoverIQR) (fr : StatsFrame)
      (name : string) (s : Series) :
  stats_ e = Some fr ->
  runs_to (stats_setitem self name s) self e
          (mkEstimator (numerical_columns_ e) (Some (setitem_stat fr name s))) (Ok tt).
Proof.
  intros H. unfold stats_setitem.
  eapply runs_bind_ok; [apply runs_get_stats_; eassumption|].
  apply runs_set_stats_.
Qed.

Lemma runs_selected_quantile (self : ref) (e : OutlierRemoverIQR) (cs : list string)
      (df : DataFrame) (q : float) :
  numerical_columns_ e = Some cs ->
  runs_to (selected_quantile self df q) self e e
          (if forallb (has_column (columns df)) cs
           then if forallb (numeric_column df) cs
                then Ok (mkSeries cs (map (fun c => quantile_1d q (column df c)) cs))
                else Raise TypeError
           else Raise (KeyError (filter (fun c => negb (has_column (columns df) c)) cs))).
Proof.
  intros H. unfold selected_quantile.
  eapply runs_bind_ok; [apply runs_get_numerical_columns_; eassumption|].
  rewrite getitem_list_has.
  destruct (forallb (has_column (columns df)) cs).
  - eapply runs_bind_ok; [apply runs_lift|].
    rewrite quantile_selected. apply runs_lift.
  - apply runs_bind_raise, runs_lift.
Qed.

(** One statement of a method body: an attribute access or a statistics
    frame access that succeeds, followed by the rest. *)
Ltac run_step :=
  eapply runs_bind_ok;
  [ first [ apply runs_set_stats_
          | apply runs_get_numerical_columns_; reflexivity
          | eapply runs_stats_getitem_ok; reflexivity
          | apply runs_stats_setitem; reflexivity ]
  | ].

(** [fit] from any state of [self]: by the columns of the reference
    frame it ends in the fitted state and returns [self], or raises and
    leaves the interrupted state. *)
Lemma runs_fit (self : ref) (reference : DataFrame) (a : columns_arg)
      (e : OutlierRemoverIQR) :
  let cs := normalize a in
  if forallb (has_column (columns reference)) cs
  then if forallb (numeric_column reference) cs
       then runs_to (fit self reference a) self e (fitted_state reference cs) (Ok self)
       else runs_to (fit self reference a) self e (interrupted_state cs) (Raise TypeError)
  else runs_to (fit self reference a) self e (interrupted_state cs)
         (Raise (KeyError (filter (fun c => negb (has_column (columns reference) c)) cs))).
Proof.
  intros cs.
  assert (Hpre : forall B (k : unit -> M B) e' r,
             runs_to (k tt) self (mkEstimator (Some cs) (stats_ e)) e' r ->
             runs_to (bindM (match a with
                             | Name c => set_numerical_columns_ self [c]
                             | Names l => set_numerical_columns_ self l
                             end) k) self e e' r).
  { intros B k e' r Hk. eapply runs_bind_ok; [|exact Hk].
    destruct a; apply runs_set_numerical_columns_. }
  pose proof (fun e' q => runs_selected_quantile self e' cs reference q) as Hq.
  simpl in Hq. unfold fit.
  destruct (forallb (has_column (columns reference)) cs);
    [destruct (forallb (numeric_column reference) cs)|];
    apply Hpre; run_step; run_step;
    try (apply runs_bind_raise, Hq; reflexivity).
  eapply runs_state_eq.
  - eapply runs_bind_ok; [apply Hq; reflexivity|]. run_step.
    eapply runs_bind_ok; [apply Hq; reflexivity|]. run_step.
    do 9 run_step. apply runs_ret.
  - unfold fitted_state, setitem_stat, series_sub, series_add, scalar_mul, empty_frame.
    simpl.
    rewrite zip_with_map. rewrite !map_map. rewrite !zip_with_map.
    reflexivity.
Qed.

(** The outcome of [fit] on any heap: the objects other than [self]
    are left alone; [self] ends in the fitted state and is returned, or
    the call raises and leaves [self] with its column list and an empty
    statistics frame. *)
Lemma fit_run (self : ref) (reference : DataFrame) (a : columns_arg) (h : Heap) :
  let cs := normalize a in
  let h' := fst (fit self reference a h) in
  let r := snd (fit self reference a h) in
  (forall o, o <> self -> h' o = h o) /\
  (if forallb (has_column (columns reference)) cs
   then if forallb (numeric_column reference) cs
        then r = Ok self /\ h' self = fitted_state reference cs
        else r = Raise TypeError /\ h' self = interrupted_state cs
   else r = Raise (KeyError (filter (fun c => negb (has_column (columns reference) c)) cs))
        /\ h' self = interrupted_state cs).
Proof.
  intros cs h' r. subst h' r.
  pose proof (runs_fit self reference a (h self)) as R. fold cs in R. simpl in R.
  destruct (forallb (has_column (columns reference)) cs);
    [destruct (forallb (numeric_column reference) cs)|];
    destruct (R h eq_refl) as (Hr & He & Ho); auto.
Qed.

(** A successful [fit] returns [self], now in the fitted state. *)
Lemma fit_Ok_inv (self s : ref) (reference : DataFrame) (a : columns_arg) (h h' : Heap) :
  fit self reference a h = (h', Ok s) ->
  s = self /\ h' self = fitted_state reference (normalize a) /\
  (forall o, o <> self -> h' o = h o).
Proof.
  intros H. destruct (fit_run self reference a h) as (Ho & Hc).
  rewrite H in Ho, Hc. simpl in Ho, Hc.
  destruct (forallb (has_column (columns reference)) (normalize a));
    [destruct (forallb (numeric_column reference) (normalize a))|];
    destruct Hc as (Hr & He); inversion Hr; auto.
Qed.

End FitFacts.

(** ** [transform] on a fitted state *)

Section TransformFacts.

Local Open Scope string_scope.

Lemma in_bounds_map (f : string -> cell) (lo hi : string -> float) (cs : list string) :
  in_bounds (map f cs) (map lo cs) (map hi cs) =
  forallb (fun c => within (lo c) (hi c) (f c)) cs.
Proof.
  induction cs as [|c cs IH]; simpl; [reflexivity|]. rewrite IH; reflexivity.
Qed.

(** On a fitted state the decision is the conjunction, over the
    selected columns, of the range check against that column's own
    cutoffs. *)
Lemma decision_fitted (reference : DataFrame) (cs cols : list string) (r : Row) :
  decision (fitted_state reference cs) cols r = keep_row reference cs cols r.
Proof. unfold decision, keep_row. simpl. apply in_bounds_map. Qed.

Lemma mapM_total {A B} (f : A -> result B) (l : list A) :
  (forall a, In a l -> exists b, f a = Ok b) -> exists bs, mapM f l = Ok bs.
Proof.
  induction l as [|a l IH]; intros H; simpl; [eexists; reflexivity|].
  destruct (H a (or_introl eq_refl)) as [b ->].
  destruct IH as [bs ->]; [intros; apply H; right; assumption|].
  eexists; reflexivity.
Qed.

Lemma cmp_cells_total (op : float -> float -> bool) (cs : list cell) (vs : list float) :
  forallb is_num cs = true -> exists m, cmp_cells op cs vs = Ok m.
Proof.
  revert vs; induction cs as [|[x|s] cs IH]; intros vs H; simpl in *;
    [eexists; reflexivity| |discriminate].
  destruct vs as [|v vs]; [eexists; reflexivity|].
  destruct (IH vs H) as [m ->]. eexists; reflexivity.
Qed.

(** The cells of a row under numeric columns are numbers. *)
Lemma numeric_cells (df : DataFrame) (cs : list string) (r : Row) :
  forallb (numeric_column df) cs = true ->
  In r (rows df) ->
  forallb is_num (map (at_label (columns df) r) cs) = true.
Proof.
  intros H Hr. rewrite forallb_map. rewrite forallb_forall in H |- *.
  intros c Hc. specialize (H c Hc). unfold numeric_column in H.
  rewrite forallb_forall in H. apply H, Hr.
Qed.

(** The facts read by [transform] make it return the selected rows. *)
Lemma transform_Ok_intro (self : ref) (df sub : DataFrame) (h : Heap)
      (cs : list string) (fr : StatsFrame) (lo hi : list float)
      (a b : list (list bool)) :
  numerical_columns_ (h self) = Some cs ->
  stats_ (h self) = Some fr ->
  assoc_get "lower_cutoff" (st_data fr) = Some lo ->
  assoc_get "upper_cutoff" (st_data fr) = Some hi ->
  st_index fr = cs ->
  getitem_list df cs = Ok sub ->
  mapM (fun r => cmp_cells ge (map (at_label (columns df) r) cs) lo) (rows df) = Ok a ->
  mapM (fun r => cmp_cells le (map (at_label (columns df) r) cs) hi) (rows df) = Ok b ->
  transform self df h = (h, Ok (getitem_mask df (all_axis1 (frame_and a b)))).
Proof.
  intros Hcs Hfr Hlo Hhi Hidx Hsub Ha Hb. unfold transform, bindM, ret.
  rewrite (compare_selected_Ok_intro ge self df sub "lower_cutoff" h a cs fr lo);
    try assumption.
  rewrite (compare_selected_Ok_intro le self df sub "upper_cutoff" h b cs fr hi);
    try assumption.
  reflexivity.
Qed.

(** On a fitted state, [transform] returns for every frame that has
    the selected columns with numbers in them. *)
Lemma transform_fitted_returns (self : ref) (reference df : DataFrame)
      (cs : list string) (h : Heap) :
  h self = fitted_state reference cs ->
  forallb (has_column (columns df)) cs = true ->
  forallb (numeric_column df) cs = true ->
  exists out, transform self df h = (h, Ok out).
Proof.
  intros Hs Hhas Hnum.
  destruct (mapM_total (fun r => cmp_cells ge (map (at_label (columns df) r) cs)
                                           (map (lower_cutoff_of reference) cs)) (rows df))
    as [a Ha].
  { intros r Hr. apply cmp_cells_total. apply numeric_cells; assumption. }
  destruct (mapM_total (fun r => cmp_cells le (map (at_label (columns df) r) cs)
                                           (map (upper_cutoff_of reference) cs)) (rows df))
    as [b Hb].
  { intros r Hr. apply cmp_cells_total. apply numeric_cells; assumption. }
  eexists. eapply transform_Ok_intro; try eassumption.
  - rewrite Hs; reflexivity.
  - rewrite Hs; reflexivity.
  - reflexivity.
  - reflexivity.
  - reflexivity.
  - rewrite getitem_list_has, Hhas. reflexivity.
Qed.

End TransformFacts.

(* ================================================================== *)
(** * The claims *)

Local Open Scope string_scope.

(** C1.  For a state produced by [fit] and a frame that contains the
    selected columns, [transform] returns (the selected columns holding
    numbers) and every frame it returns has the columns of the input and,
    as rows, exactly the input rows whose combined keep decision is true:
    a subsequence of the input rows, each surviving row being the input
    row itself, with its label and all of its cells. *)
Theorem transform_subsequence
        (self s : ref) (reference df : DataFrame) (a : columns_arg) (h0 h : Heap) :
  fit self reference a h0 = (h, Ok s) ->
  forallb (has_column (columns df)) (normalize a) = true ->
  (forallb (numeric_column df) (normalize a) = true ->
   exists out, transform s df h = (h, Ok out)) /\
  (forall h' out,
      transform s df h = (h', Ok out) ->
      columns out = columns df /\
      rows out = filter (decision (h s) (columns df)) (rows df) /\
      subsequence (rows out) (rows df) /\
      (forall r, In r (rows out) <->
                 In r (rows df) /\ decision (h s) (columns df) r = true)).
Proof.
  intros Hfit Hhas.
  apply fit_Ok_inv in Hfit as (-> & Hstate & _).
  split.
  - intros Hnum. eapply transform_fitted_returns; eassumption.
  - intros h' out Ht. apply transform_Ok_filter in Ht. subst out. simpl.
    split; [reflexivity|]. split; [reflexivity|].
    split; [apply filter_subsequence|].
    intros r. rewrite filter_In. tauto.
Qed.


(** C4.  [transform] is idempotent for a fixed fitted state: on a frame
    that has the selected columns, with numbers in them, [transform]
    returns, and applying it again to its own result returns that same
    result. *)
Theorem transform_idempotent
        (self s : ref) (reference df : DataFrame) (a : columns_arg) (h0 h : Heap) :
  fit self reference a h0 = (h, Ok s) ->
  forallb (has_column (columns df)) (normalize a) = true ->
  forallb (numeric_column df) (normalize a) = true ->
  exists out,
    transform s df h = (h, Ok out) /\
    transform s out h = (h, Ok out).
Proof.
  intros Hfit Hhas Hnum.
  apply fit_Ok_inv in Hfit as (-> & Hstate & _).
  destruct (transform_fitted_returns self reference df (normalize a) h Hstate Hhas Hnum)
    as [out Hout].
  exists out. split; [assumption|].
  pose proof (transform_Ok_filter _ _ _ _ _ Hout) as Eout.
  apply transform_Ok_inv in Hout
    as (cs & fr & lo & hi & ma & mb & Hcs & Hfr & Hlo & Hhi & Hidx & Hsub & Ha & Hb & _).
  assert (Hcols : columns out = columns df) by (rewrite Eout; reflexivity).
  destruct (mapM_filter _ (decision (h self) (columns df)) _ _ Ha) as [ma' Ha'].
  destruct (mapM_filter _ (decision (h self) (columns df)) _ _ Hb) as [mb' Hb'].
  pose proof (getitem_list_columns df out cs _ Hsub Hcols) as Hsub'.
  assert (Hrun : transform self out h =
                 (h, Ok (getitem_mask out (all_axis1 (frame_and ma' mb'))))).
  { eapply transform_Ok_intro; try eassumption.
    - rewrite Hcols. rewrite Eout at 1. exact Ha'.
    - rewrite Hcols. rewrite Eout at 1. exact Hb'. }
  rewrite Hrun. f_equal. f_equal.
  apply transform_Ok_filter in Hrun. rewrite Hrun.
  rewrite Hcols. rewrite Eout at 1. simpl rows. rewrite filter_idem.
  symmetry; exact Eout.
Qed.

(** C5.  [fit] with an empty list of column names succeeds on every
    reference frame, and [transform] with the resulting state returns
    every frame unchanged. *)
Theorem empty_selection_keeps_all
        (self : ref) (reference df : DataFrame) (h0 : Heap) :
  snd (fit self reference (Names []) h0) = Ok self /\
  transform self df (fst (fit self reference (Names []) h0)) =
    (fst (fit self reference (Names []) h0), Ok df).
Proof.
  destruct (fit_run self reference (Names []) h0) as (_ & Hr & Hstate).
  simpl in Hr, Hstate. split; [assumption|].
  set (h := fst (fit self reference (Names []) h0)) in *.
  destruct (transform_fitted_returns self reference df [] h Hstate eq_refl eq_refl)
    as [out Hout].
  rewrite Hout. f_equal. f_equal.
  apply transform_Ok_filter in Hout. rewrite Hout, Hstate.
  rewrite filter_all by (intros; apply decision_fitted).
  destruct df; reflexivity.
Qed.

(** C6.  [fit] is deterministic: two calls on the same reference frame
    and column argument, on any estimator objects in any heaps, either
    both raise the same exception or both return their estimator, and
    they leave the same state in it: the same column list and the same
    Q1, Q3, IQR, lower_cutoff and upper_cutoff for every selected
    column. *)
Theorem fit_deterministic
        (o1 o2 : ref) (reference : DataFrame) (a : columns_arg) (h1 h2 : Heap) :
  let e1 := fst (fit o1 reference a h1) o1 in
  let e2 := fst (fit o2 reference a h2) o2 in
  e1 = e2 /\
  numerical_columns_ e1 = numerical_columns_ e2 /\
  (forall name k, stat_at e1 name k = stat_at e2 name k) /\
  (snd (fit o1 reference a h1) = Ok o1 /\ snd (fit o2 reference a h2) = Ok o2 \/
   exists e, snd (fit o1 reference a h1) = Raise e /\ snd (fit o2 reference a h2) = Raise e).
Proof.
  intros e1 e2. subst e1 e2.
  destruct (fit_run o1 reference a h1) as (_ & H1).
  destruct (fit_run o2 reference a h2) as (_ & H2).
  destruct (forallb (has_column (columns reference)) (normalize a));
    [destruct (forallb (numeric_column reference) (normalize a))|];
    destruct H1 as (R1 & E1); destruct H2 as (R2 & E2);
    rewrite E1, E2, R1, R2; repeat split; eauto.
Qed.

(** C7.  Calling [transform] on an estimator that was never fitted
    fails, for every frame: the first attribute read raises
    [AttributeError] for the fitted attribute [numerical_columns_], no
    frame is returned and no other exception can come first. *)
Theorem transform_before_fit (self : ref) (df : DataFrame) (h : Heap) :
  h self = unfitted ->
  transform self df h = (h, Raise (AttributeError "numerical_columns_")).
Proof.
  intros H. unfold transform, compare_selected, get_numerical_columns_, bindM.
  rewrite H. reflexivity.
Qed.

(** ** Missing values *)

Section FloatFacts.

Local Open Scope float_scope.

Lemma SFcompare_refl_nan (f : spec_float) :
  SFeqb f f = false -> f = S754_nan.
Proof.
  destruct f as [s|s| |s m e]; simpl; try discriminate; try reflexivity.
  - destruct s; discriminate.
  - unfold SFeqb, SFcompare.
    destruct s; rewrite Z.compare_refl, Pos.compare_cont_refl; discriminate.
Qed.

(** A NaN is never above a bound. *)
Lemma leb_nan_r (l x : float) : is_nan x = true -> (l <=? x) = false.
Proof.
  unfold is_nan. intros H. apply negb_true_iff in H.
  rewrite FloatAxioms.eqb_spec in H. apply SFcompare_refl_nan in H.
  rewrite FloatAxioms.leb_spec, H. unfold SFleb, SFcompare.
  destruct (Prim2SF l) as [s|s| |s m e]; try destruct s; reflexivity.
Qed.


End FloatFacts.

(** C3.  Fitting on the single column [[1,2,3,4,5,6,7,8,9,100]], named
    by a string or by a one-element list, stores Q1 = 3.25, Q3 = 7.75,
    IQR = 4.5, lower_cutoff = -3.5 and upper_cutoff = 14.5; transforming
    the same frame with that state returns its first nine rows: the row
    with value 100 is dropped, the others are kept. *)
Theorem ten_values_cutoffs (self : ref) (h0 : Heap) (as_list : bool) :
  let a := if as_list then Names ["x"] else Name "x" in
  let h := fst (fit self Samples.ten_values a h0) in
  snd (fit self Samples.ten_values a h0) = Ok self /\
  stat_at (h self) "Q1" 0 = Some 3.25%float /\
  stat_at (h self) "Q3" 0 = Some 7.75%float /\
  stat_at (h self) "IQR" 0 = Some 4.5%float /\
  stat_at (h self) "lower_cutoff" 0 = Some (-3.5)%float /\
  stat_at (h self) "upper_cutoff" 0 = Some 14.5%float /\
  transform self Samples.ten_values h = (h, Ok Samples.nine_values).
Proof.
  intros a h.
  assert (Ha : normalize a = ["x"]) by (destruct as_list; reflexivity).
  destruct (fit_run self Samples.ten_values a h0) as (_ & Hc).
  rewrite Ha in Hc.
  replace (forallb (has_column (columns Samples.ten_values)) ["x"]) with true in Hc
    by (vm_compute; reflexivity).
  replace (forallb (numeric_column Samples.ten_values) ["x"]) with true in Hc
    by (vm_compute; reflexivity).
  destruct Hc as (Hr & Hstate). fold h in Hstate.
  split; [exact Hr|].
  rewrite Hstate.
  repeat (split; [vm_compute; reflexivity|]).
  destruct (transform_fitted_returns self Samples.ten_values Samples.ten_values ["x"] h
              Hstate) as [out Hout]; try (vm_compute; reflexivity).
  rewrite Hout. f_equal. f_equal.
  apply transform_Ok_filter in Hout. rewrite Hout, Hstate.
  vm_compute. reflexivity.
Qed.

(** C8, as the code has it.  [fit] stores the column list and the
    statistics in the estimator it is called on and returns that same
    object; a later [fit] of the same estimator replaces, in the same
    object, what the earlier one stored: its column list whatever the
    outcome, its statistics when it returns.  A [fit] leaves every other
    estimator as it was, and [transform] leaves the whole heap as it
    was. *)
Theorem fit_assigns_in_place
        (self o : ref) (reference later df : DataFrame) (a b : columns_arg) (h : Heap) :
  o <> self ->
  let h1 := fst (fit self reference a h) in
  let h2 := fst (fit self later b h1) in
  (forall s, snd (fit self reference a h) = Ok s ->
             s = self /\ h1 self = fitted_state reference (normalize a)) /\
  numerical_columns_ (h2 self) = Some (normalize b) /\
  (snd (fit self later b h1) = Ok self -> h2 self = fitted_state later (normalize b)) /\
  h1 o = h o /\
  h2 o = h o /\
  (forall t, fst (transform t df h) = h).
Proof.
  intros Hne h1 h2. subst h1 h2.
  destruct (fit_run self reference a h) as (Ho1 & Hc1).
  destruct (fit_run self later b (fst (fit self reference a h))) as (Ho2 & Hc2).
  split; [|split; [|split; [|split; [|split]]]].
  - intros s Hs. rewrite Hs in Hc1.
    destruct (forallb (has_column (columns reference)) (normalize a));
      [destruct (forallb (numeric_column reference) (normalize a))|];
      destruct Hc1 as (Hr & He); inversion Hr; auto.
  - destruct (forallb (has_column (columns later)) (normalize b));
      [destruct (forallb (numeric_column later) (normalize b))|];
      destruct Hc2 as (_ & He); rewrite He; reflexivity.
  - intros Hs. rewrite Hs in Hc2.
    destruct (forallb (has_column (columns later)) (normalize b));
      [destruct (forallb (numeric_column later) (normalize b))|];
      destruct Hc2 as (Hr & He); inversion Hr; auto.
  - apply Ho1, Hne.
  - rewrite (Ho2 o Hne). apply Ho1, Hne.
  - intros t. apply transform_heap.
Qed.

(** C8, as stated, fails: fitting an estimator again overwrites, in the
    same object, the state of the earlier fit.  After fitting object 0 on
    [[1..9,100]] its Q1 is 3.25; after fitting the same object on
    [[10,12,12,13,12,11,100]] the reference returned by the first call
    sees Q1 = 11.5. *)
Lemma refit_overwrites_state :
  let h1 := fst (fit 0 Samples.ten_values (Name "x") Samples.fresh_heap) in
  let h2 := fst (fit 0 Samples.seven_values (Name "x") h1) in
  snd (fit 0 Samples.ten_values (Name "x") Samples.fresh_heap) = Ok 0 /\
  snd (fit 0 Samples.seven_values (Name "x") h1) = Ok 0 /\
  stat_at (h1 0) "Q1" 0 = Some 3.25%float /\
  stat_at (h2 0) "Q1" 0 = Some 11.5%float /\
  h2 0 <> h1 0.
Proof.
  intros h1 h2.
  repeat (split; [vm_compute; reflexivity|]).
  intros E.
  assert (H : stat_at (h2 0) "Q1" 0 = stat_at (h1 0) "Q1" 0) by (rewrite E; reflexivity).
  vm_compute in H. inversion H.
Qed.

(** ** The pair selection of the correlation plot *)

Import Correlation.

Section CorrelationFacts.

Local Open Scope list_scope.

Variable cm : CorrMatrix.
Variable threshold : float.
Hypothesis Hsq : square cm.

Lemma iloc_entry (i j : nat) :
  i < List.length (cm_columns cm) ->
  j < List.length (cm_columns cm) ->
  iloc cm i j = Ok (entry cm i j).
Proof.
  intros Hi Hj. destruct Hsq as [Hlen Hrows]. unfold iloc, entry.
  destruct (nth_error (cm_values cm) i) as [row|] eqn:Ei.
  - assert (Hrow : List.length row = List.length (cm_columns cm)).
    { rewrite Forall_forall in Hrows. apply Hrows.
      eapply nth_error_In; eassumption. }
    rewrite (nth_error_nth _ _ [] Ei).
    destruct (nth_error row j) as [v|] eqn:Ej.
    + rewrite (nth_error_nth _ _ nan Ej). reflexivity.
    + apply nth_error_None in Ej. lia.
  - apply nth_error_None in Ei. lia.
Qed.

Lemma for_j_selected (i : nat) (js : list nat) (acc : list triple) :
  i < List.length (cm_columns cm) ->
  Forall (fun j => j < List.length (cm_columns cm)) js ->
  for_j cm threshold i js acc = Ok (acc ++ selected cm threshold i js).
Proof.
  intros Hi. revert acc. induction js as [|j js IH]; intros acc Hjs.
  - simpl. unfold selected. simpl. rewrite app_nil_r. reflexivity.
  - inversion Hjs as [|? ? Hj Hjs']; subst. simpl.
    rewrite (iloc_entry i j Hi Hj). simpl. rewrite (IH _ Hjs').
    unfold selected. simpl.
    destruct (threshold <=? abs (entry cm i j))%float; simpl.
    + rewrite <- app_assoc. reflexivity.
    + reflexivity.
Qed.

Lemma for_i_selected (rows_i : list nat) (acc : list triple) :
  Forall (fun i => i < List.length (cm_columns cm)) rows_i ->
  for_i cm threshold rows_i acc =
  Ok (acc ++ flat_map (fun i => selected cm threshold i
                                  (seq (S i) (List.length (cm_columns cm) - S i)))
                      rows_i).
Proof.
  revert acc. induction rows_i as [|i rows_i IH]; intros acc Hall.
  - simpl. rewrite app_nil_r. reflexivity.
  - inversion Hall as [|? ? Hi Hall']; subst. simpl.
    rewrite (for_j_selected i _ acc Hi).
    + simpl. rewrite (IH _ Hall'). rewrite <- app_assoc. reflexivity.
    + apply Forall_forall. intros j Hj. apply in_seq in Hj. lia.
Qed.

Lemma map_filter_flat_map {A B C} (f : B -> C) (p : B -> bool) (g : A -> list B)
      (l : list A) :
  map f (filter p (flat_map g l)) = flat_map (fun a => map f (filter p (g a))) l.
Proof.
  induction l as [|a l IH]; simpl; [reflexivity|].
  rewrite filter_app, map_app, IH. reflexivity.
Qed.

(** The two loops compute the selection of the interface. *)
Lemma loops_high_pairs :
  for_i cm threshold (seq O (List.length (cm_columns cm))) [] = Ok (high_pairs cm threshold).
Proof.
  rewrite for_i_selected.
  - simpl. unfold high_pairs, upper_triangle.
    rewrite map_filter_flat_map. reflexivity.
  - apply Forall_forall. intros i Hi. apply in_seq in Hi. lia.
Qed.

(** The selection holds the triples of the strict upper triangle at or
    above the threshold, taken from the matrix as they are. *)
Lemma high_pairs_In (t : triple) :
  In t (high_pairs cm threshold) <->
  exists i j, i < j /\ j < List.length (cm_columns cm) /\
              t = (col cm i, col cm j, entry cm i j) /\
              (threshold <=? abs (entry cm i j))%float = true.
Proof.
  unfold high_pairs. rewrite in_map_iff. split.
  - intros ([i j] & <- & Hin). apply filter_In in Hin as [Hin Hp].
    unfold upper_triangle in Hin. apply in_flat_map in Hin as (i' & Hi' & Hin).
    apply in_map_iff in Hin as (j' & E & Hj'). inversion E; subst.
    apply in_seq in Hi', Hj'. exists i, j. repeat split; auto; lia.
  - intros (i & j & Hij & Hj & -> & Hp). exists (i, j). split; [reflexivity|].
    apply filter_In. split; [|assumption].
    unfold upper_triangle. apply in_flat_map. exists i. split.
    + apply in_seq. lia.
    + apply in_map_iff. exists j. split; [reflexivity|]. apply in_seq. lia.
Qed.

End CorrelationFacts.

(** C10.  On a square correlation matrix, [plot_high_correlation_scatter]
    selects the triples [(column_i, column_j, r)] of the strict upper
    triangle ([i < j], row by row) with [|r| >= threshold], columns and
    value as the matrix has them.  With no such pair it returns the empty
    list; otherwise it returns exactly that list, whenever it returns,
    and it does return when the grid has columns and drawing does not
    raise. *)
Theorem high_correlation_pairs
        (draw : DataFrame -> list triple -> Z -> Z -> result unit)
        (df : DataFrame) (cm : CorrMatrix) (threshold : float) (n_cols : Z) :
  square cm ->
  let result := plot_high_correlation_scatter draw df cm threshold n_cols in
  let pairs := high_pairs cm threshold in
  (forall t, In t pairs <->
             exists i j, i < j /\ j < List.length (cm_columns cm) /\
                         t = (col cm i, col cm j, entry cm i j) /\
                         (threshold <=? abs (entry cm i j))%float = true) /\
  (pairs = [] -> result = Ok []) /\
  (forall l, result = Ok l -> l = pairs) /\
  (n_cols <> 0%Z ->
   draw df pairs ((Z.of_nat (List.length pairs) + n_cols - 1) / n_cols)%Z n_cols = Ok tt ->
   result = Ok pairs).
Proof.
  intros Hsq result pairs. subst result pairs.
  unfold plot_high_correlation_scatter.
  rewrite (loops_high_pairs cm threshold Hsq). simpl Py.bind.
  split; [apply high_pairs_In; assumption|].
  destruct (high_pairs cm threshold) as [|t l] eqn:E.
  - repeat split; auto. intros l H; inversion H; reflexivity.
  - split; [discriminate|]. split.
    + intros l'. destruct (Z.eqb n_cols 0); simpl; [discriminate|].
      destruct (draw _ _ _ _); simpl; [|discriminate].
      intros H; inversion H; reflexivity.
    + intros Hn Hdraw. apply Z.eqb_neq in Hn. rewrite Hn. unfold Py.bind.
      rewrite Hdraw. reflexivity.
Qed.

(* ================================================================== *)
(** * The claims on sample data *)

(** [transform_subsequence] on [patients], fitted and filtered on [x]
    and [y]. *)
Lemma transform_subsequence_witness :
  fit 0 Samples.patients (Names ["x"; "y"]) Samples.fresh_heap
    = (Samples.fitted_heap, Ok 0) /\
  forallb (has_column (columns Samples.patients)) ["x"; "y"] = true /\
  ((forallb (numeric_column Samples.patients) ["x"; "y"] = true ->
    exists out, transform 0 Samples.patients Samples.fitted_heap
                = (Samples.fitted_heap, Ok out)) /\
   (forall h' out,
       transform 0 Samples.patients Samples.fitted_heap = (h', Ok out) ->
       columns out = columns Samples.patients /\
       rows out = filter (decision (Samples.fitted_heap 0) (columns Samples.patients))
                         (rows Samples.patients) /\
       subsequence (rows out) (rows Samples.patients) /\
       (forall r, In r (rows out) <->
                  In r (rows Samples.patients) /\
                  decision (Samples.fitted_heap 0) (columns Samples.patients) r = true))).
Proof.
  split; [vm_compute; reflexivity|]. split; [vm_compute; reflexivity|].
  apply (transform_subsequence 0 0 Samples.patients Samples.patients
           (Names ["x"; "y"]) Samples.fresh_heap Samples.fitted_heap);
    vm_compute; reflexivity.
Defined.


(** [transform_idempotent] on [patients]. *)
Lemma transform_idempotent_witness :
  fit 0 Samples.patients (Names ["x"; "y"]) Samples.fresh_heap
    = (Samples.fitted_heap, Ok 0) /\
  forallb (has_column (columns Samples.patients)) ["x"; "y"] = true /\
  forallb (numeric_column Samples.patients) ["x"; "y"] = true /\
  exists out,
    transform 0 Samples.patients Samples.fitted_heap = (Samples.fitted_heap, Ok out) /\
    transform 0 out Samples.fitted_heap = (Samples.fitted_heap, Ok out).
Proof.
  split; [vm_compute; reflexivity|]. split; [vm_compute; reflexivity|].
  split; [vm_compute; reflexivity|].
  apply (transform_idempotent 0 0 Samples.patients Samples.patients
           (Names ["x"; "y"]) Samples.fresh_heap Samples.fitted_heap);
    vm_compute; reflexivity.
Defined.

(** [transform_before_fit] on a fresh estimator. *)
Lemma transform_before_fit_witness :
  Samples.fresh_heap 0 = unfitted /\
  transform 0 Samples.patients Samples.fresh_heap
    = (Samples.fresh_heap, Raise (AttributeError "numerical_columns_")).
Proof.
  split; [reflexivity|].
  apply (transform_before_fit 0 Samples.patients Samples.fresh_heap). reflexivity.
Defined.

(** [fit_assigns_in_place]: estimator 0 is fitted on [ten_values] and
    then on [seven_values]; estimator 1 is left alone. *)
Lemma fit_assigns_in_place_witness :
  1 <> 0 /\
  (forall s, snd (fit 0 Samples.ten_values (Name "x") Samples.fresh_heap) = Ok s ->
             s = 0 /\
             fst (fit 0 Samples.ten_values (Name "x") Samples.fresh_heap) 0
             = fitted_state Samples.ten_values ["x"]) /\
  numerical_columns_
    (fst (fit 0 Samples.seven_values (Names ["x"])
              (fst (fit 0 Samples.ten_values (Name "x") Samples.fresh_heap))) 0)
  = Some ["x"] /\
  (snd (fit 0 Samples.seven_values (Names ["x"])
            (fst (fit 0 Samples.ten_values (Name "x") Samples.fresh_heap))) = Ok 0 ->
   fst (fit 0 Samples.seven_values (Names ["x"])
            (fst (fit 0 Samples.ten_values (Name "x") Samples.fresh_heap))) 0
   = fitted_state Samples.seven_values ["x"]) /\
  fst (fit 0 Samples.ten_values (Name "x") Samples.fresh_heap) 1 = Samples.fresh_heap 1 /\
  fst (fit 0 Samples.seven_values (Names ["x"])
           (fst (fit 0 Samples.ten_values (Name "x") Samples.fresh_heap))) 1
  = Samples.fresh_heap 1 /\
  (forall t, fst (transform t Samples.patients Samples.fresh_heap) = Samples.fresh_heap).
Proof.
  split; [discriminate|].
  apply (fit_assigns_in_place 0 1 Samples.ten_values Samples.seven_values Samples.patients
           (Name "x") (Names ["x"]) Samples.fresh_heap).
  discriminate.
Defined.

(** [high_correlation_pairs] on [corr3] with threshold 0.5. *)
Lemma high_correlation_pairs_witness :
  square Samples.corr3 /\
  plot_high_correlation_scatter Samples.draw_nothing Samples.patients Samples.corr3
                                0.5%float 4
    = Ok [("a", "b", 0.75%float); ("b", "c", (-0.625)%float)].
Proof.
  assert (Hsq : square Samples.corr3).
  { split; [reflexivity|]. repeat constructor. }
  split; [exact Hsq|].
  apply (proj2 (proj2 (proj2
           (high_correlation_pairs Samples.draw_nothing Samples.patients Samples.corr3
              0.5%float 4 Hsq))));
    [discriminate | reflexivity].
Defined.

(* ================================================================== *)
(** * Further properties of the estimator *)

Section OutcomeFacts.

Local Open Scope string_scope.

(** The outcome of [transform] depends on the attributes of [self]
    only. *)
Lemma compare_selected_local (op : float -> float -> bool) (s1 s2 : ref)
      (df : DataFrame) (name : string) (h1 h2 : Heap) :
  h1 s1 = h2 s2 ->
  snd (compare_selected op s1 df name h1) = snd (compare_selected op s2 df name h2).
Proof.
  intros H.
  unfold compare_selected, stats_getitem, get_numerical_columns_,
    get_stats_, lift, bindM.
  rewrite H. destruct (numerical_columns_ (h2 s2)) as [cs|]; [|reflexivity].
  destruct (getitem_list df cs); [|reflexivity].
  rewrite H. destruct (stats_ (h2 s2)) as [fr|]; [|reflexivity].
  destruct (getitem_stat fr name); reflexivity.
Qed.

Lemma transform_local (s1 s2 : ref) (df : DataFrame) (h1 h2 : Heap) :
  h1 s1 = h2 s2 ->
  snd (transform s1 df h1) = snd (transform s2 df h2).
Proof.
  intros H. unfold transform, bindM, ret.
  pose proof (compare_selected_local ge s1 s2 df "lower_cutoff" h1 h2 H) as Ea.
  pose proof (compare_selected_heap ge s1 df "lower_cutoff" h1) as Ha1.
  pose proof (compare_selected_heap ge s2 df "lower_cutoff" h2) as Ha2.
  destruct (compare_selected ge s1 df "lower_cutoff" h1) as [h1' r1].
  destruct (compare_selected ge s2 df "lower_cutoff" h2) as [h2' r2].
  simpl in Ea, Ha1, Ha2. subst h1' h2' r2.
  destruct r1 as [a|e]; [|reflexivity].
  pose proof (compare_selected_local le s1 s2 df "upper_cutoff" h1 h2 H) as Eb.
  destruct (compare_selected le s1 df "upper_cutoff" h1) as [h1' r1].
  destruct (compare_selected le s2 df "upper_cutoff" h2) as [h2' r2].
  simpl in Eb. subst r2. destruct r1; reflexivity.
Qed.

(** Comparing the selected cells of a row with one cutoff per selected
    column: the booleans, or [TypeError] when a cell is not a number. *)
Lemma cmp_cells_map (op : float -> float -> bool) (g : string -> cell)
      (f : string -> float) (cs : list string) :
  exists bs,
    cmp_cells op (map g cs) (map f cs) =
    if forallb (fun c => is_num (g c)) cs then Ok bs else Raise TypeError.
Proof.
  induction cs as [|c cs [bs IH]].
  - exists []. reflexivity.
  - cbn [map cmp_cells forallb].
    destruct (g c) as [x|s]; cbn [cmp_cell is_num andb Py.bind].
    + destruct (forallb (fun c0 => is_num (g c0)) cs) eqn:E.
      * exists (op x (f c) :: bs). rewrite IH. reflexivity.
      * exists []. rewrite IH. reflexivity.
    + exists []. reflexivity.
Qed.

Lemma forallb_swap {A B} (p : A -> B -> bool) (l : list A) (m : list B) :
  forallb (fun a => forallb (fun b => p a b) m) l =
  forallb (fun b => forallb (fun a => p a b) l) m.
Proof.
  induction l as [|a l IH]; simpl.
  - induction m as [|b m IHm]; simpl; [reflexivity|assumption].
  - rewrite IH. clear IH. induction m as [|b m IHm]; simpl; [reflexivity|].
    rewrite <- IHm.
    destruct (p a b), (forallb (fun a0 => p a0 b) l),
      (forallb (fun b0 => p a b0) m); reflexivity.
Qed.

(** A non-number in a selected column makes the row-wise comparison
    raise [TypeError]. *)
Lemma cmp_rows_type_error (op : float -> float -> bool) (df : DataFrame)
      (f : string -> float) (cs : list string) :
  forallb (numeric_column df) cs = false ->
  mapM (fun r => cmp_cells op (map (at_label (columns df) r) cs) (map f cs)) (rows df)
  = Raise TypeError.
Proof.
  intros Hnum. unfold numeric_column in Hnum.
  rewrite <- forallb_swap in Hnum.
  induction (rows df) as [|r rs IH]; simpl in *; [discriminate|].
  destruct (cmp_cells_map op (at_label (columns df) r) f cs) as [bs ->].
  destruct (forallb (fun c => is_num (at_label (columns df) r c)) cs); simpl.
  - simpl in Hnum. rewrite (IH Hnum). reflexivity.
  - reflexivity.
Qed.

(** The outcome of [transform] on a fitted state, by the input frame. *)
Lemma transform_fitted_outcome (self : ref) (reference df : DataFrame)
      (cs : list string) (h : Heap) :
  h self = fitted_state reference cs ->
  transform self df h =
  (h, if forallb (has_column (columns df)) cs
      then if forallb (numeric_column df) cs
           then Ok (mkDF (columns df)
                         (filter (keep_row reference cs (columns df)) (rows df)))
           else Raise TypeError
      else Raise (KeyError (filter (fun c => negb (has_column (columns df) c)) cs))).
Proof.
  intros Hs.
  destruct (forallb (has_column (columns df)) cs) eqn:Hhas.
  - destruct (forallb (numeric_column df) cs) eqn:Hnum.
    + destruct (transform_fitted_returns self reference df cs h Hs Hhas Hnum)
        as [out Hout].
      rewrite Hout. f_equal. f_equal.
      apply transform_Ok_filter in Hout. rewrite Hout, Hs.
      f_equal. apply filter_ext. intros r. apply decision_fitted.
    + unfold transform, compare_selected, stats_getitem, get_numerical_columns_,
        get_stats_, getitem_stat, lift, bindM.
      rewrite Hs. simpl numerical_columns_. cbv beta iota.
      rewrite getitem_list_has, Hhas. rewrite Hs. simpl stats_. cbv beta iota.
      simpl assoc_get. cbv beta iota.
      unfold cmp_frame. simpl columns. simpl s_index.
      replace (list_string_eqb cs cs) with true
        by (symmetry; apply list_string_eqb_eq; reflexivity).
      simpl rows. simpl s_values. rewrite mapM_map. simpl cells.
      rewrite (cmp_rows_type_error ge df (lower_cutoff_of reference) cs Hnum).
      reflexivity.
  - unfold transform, compare_selected, get_numerical_columns_, lift, bindM.
    rewrite Hs. simpl numerical_columns_. cbv beta iota.
    rewrite getitem_list_has, Hhas. reflexivity.
Qed.

End OutcomeFacts.

Section NanFacts.

Local Open Scope float_scope.

(** A NaN is never below a bound. *)
Lemma leb_nan_l (l x : float) : is_nan l = true -> (l <=? x) = false.
Proof.
  unfold is_nan. intros H. apply negb_true_iff in H.
  rewrite FloatAxioms.eqb_spec in H. apply SFcompare_refl_nan in H.
  rewrite FloatAxioms.leb_spec, H. reflexivity.
Qed.

Lemma abs_nan (x : float) : is_nan x = true -> is_nan (abs x) = true.
Proof.
  unfold is_nan. intros H. apply negb_true_iff in H.
  rewrite FloatAxioms.eqb_spec in H. apply SFcompare_refl_nan in H.
  apply negb_true_iff. rewrite FloatAxioms.eqb_spec, FloatAxioms.abs_spec, H.
  reflexivity.
Qed.


End NanFacts.



(** X2.  When a selected column is not in the reference frame, [fit]
    raises [KeyError] with exactly the selected names that are missing,
    in the order given, whether or not the other columns are numeric; the
    estimator is left with the new column list and a statistics frame
    without statistics. *)
Theorem fit_missing_columns
        (self : ref) (reference : DataFrame) (a : columns_arg) (h : Heap) :
  forallb (has_column (columns reference)) (normalize a) = false ->
  snd (fit self reference a h) =
    Raise (KeyError (filter (fun c => negb (has_column (columns reference) c))
                            (normalize a))) /\
  numerical_columns_ (fst (fit self reference a h) self) = Some (normalize a) /\
  stats_ (fst (fit self reference a h) self) = Some (mkStats (normalize a) []).
Proof.
  intros Hhas. destruct (fit_run self reference a h) as (_ & Hc).
  rewrite Hhas in Hc. destruct Hc as (Hr & Hs). rewrite Hr, Hs.
  repeat split.
Qed.


(** X4.  With a fitted estimator, [transform] on a frame that lacks
    selected columns raises [KeyError] with exactly the selected names the
    frame does not have, in order, and leaves the heap as it was. *)
Theorem transform_missing_columns
        (self s : ref) (reference df : DataFrame) (a : columns_arg) (h0 h : Heap) :
  fit self reference a h0 = (h, Ok s) ->
  forallb (has_column (columns df)) (normalize a) = false ->
  transform s df h =
  (h, Raise (KeyError (filter (fun c => negb (has_column (columns df) c))
                              (normalize a)))).
Proof.
  intros Hfit Hhas. apply fit_Ok_inv in Hfit as (-> & Hs & _).
  rewrite (transform_fitted_outcome self reference df (normalize a) h Hs), Hhas.
  reflexivity.
Qed.

(** X5.  With a fitted estimator, [transform] on a frame that has the
    selected columns raises [TypeError] as soon as one selected column
    holds something that is not a number, in any row, also in a row that
    another column would have excluded. *)
Theorem transform_non_numeric
        (self s : ref) (reference df : DataFrame) (a : columns_arg) (h0 h : Heap) :
  fit self reference a h0 = (h, Ok s) ->
  forallb (has_column (columns df)) (normalize a) = true ->
  forallb (numeric_column df) (normalize a) = false ->
  transform s df h = (h, Raise TypeError).
Proof.
  intros Hfit Hhas Hnum. apply fit_Ok_inv in Hfit as (-> & Hs & _).
  rewrite (transform_fitted_outcome self reference df (normalize a) h Hs), Hhas, Hnum.
  reflexivity.
Qed.

(** X6.  Filtering in chunks: with a fitted estimator, when [transform]
    returns on two frames with the same columns, it returns on the frame
    that holds the rows of the first followed by the rows of the second,
    and the result holds the rows of the first result followed by the
    rows of the second. *)
Theorem transform_concat
        (self s : ref) (reference : DataFrame) (a : columns_arg) (h0 h : Heap)
        (cols : list string) (rows1 rows2 : list Row) (out1 out2 : DataFrame) :
  fit self reference a h0 = (h, Ok s) ->
  transform s (mkDF cols rows1) h = (h, Ok out1) ->
  transform s (mkDF cols rows2) h = (h, Ok out2) ->
  transform s (mkDF cols (rows1 ++ rows2)) h =
  (h, Ok (mkDF cols (rows out1 ++ rows out2))).
Proof.
  intros Hfit H1 H2. apply fit_Ok_inv in Hfit as (-> & Hs & _).
  rewrite (transform_fitted_outcome self reference _ (normalize a) h Hs) in H1.
  rewrite (transform_fitted_outcome self reference _ (normalize a) h Hs) in H2.
  rewrite (transform_fitted_outcome self reference _ (normalize a) h Hs).
  simpl columns in *. simpl rows in *.
  destruct (forallb (has_column cols) (normalize a)); [|discriminate].
  unfold numeric_column in *. simpl columns in *. simpl rows in *.
  destruct (forallb (fun c => forallb (fun r => is_num (at_label cols r c)) rows1)
                    (normalize a)) eqn:N1; [|discriminate].
  destruct (forallb (fun c => forallb (fun r => is_num (at_label cols r c)) rows2)
                    (normalize a)) eqn:N2; [|discriminate].
  replace (forallb (fun c => forallb (fun r => is_num (at_label cols r c)) (rows1 ++ rows2))
                   (normalize a)) with true.
  - inversion H1; inversion H2; subst. simpl. rewrite filter_app. reflexivity.
  - symmetry. rewrite forallb_forall in N1, N2 |- *. intros c Hc.
    rewrite forallb_app, (N1 c Hc), (N2 c Hc). reflexivity.
Qed.


(** X8.  After a successful [fit], the statistics frame holds, for each
    selected column, five numbers tied by the formulas of the source:
    IQR is Q3 - Q1, lower_cutoff is Q1 - 1.5 * IQR and upper_cutoff is
    Q3 + 1.5 * IQR, in binary64 arithmetic; it holds nothing beyond the
    selected columns. *)
Theorem fitted_statistics_formulas
        (self s : ref) (reference : DataFrame) (a : columns_arg) (h0 h : Heap) (k : nat) :
  fit self reference a h0 = (h, Ok s) ->
  (k < List.length (normalize a) ->
   exists q1 q3 : float,
     stat_at (h s) "Q1" k = Some q1 /\
     stat_at (h s) "Q3" k = Some q3 /\
     stat_at (h s) "IQR" k = Some (q3 - q1)%float /\
     stat_at (h s) "lower_cutoff" k = Some (q1 - 1.5 * (q3 - q1))%float /\
     stat_at (h s) "upper_cutoff" k = Some (q3 + 1.5 * (q3 - q1))%float) /\
  (List.length (normalize a) <= k ->
   forall name, stat_at (h s) name k = None).
Proof.
  intros Hfit. apply fit_Ok_inv in Hfit as (-> & Hs & _). rewrite Hs. split.
  - intros Hk. destruct (nth_error (normalize a) k) as [c|] eqn:Ec;
      [|apply nth_error_None in Ec; lia].
    exists (Q1_of reference c), (Q3_of reference c).
    unfold stat_at. simpl.
    repeat split; rewrite (map_nth_error _ _ _ Ec); reflexivity.
  - intros Hk name. unfold stat_at. simpl.
    repeat (match goal with
            | |- context [String.eqb name ?x] => destruct (String.eqb name x)
            end;
            [apply nth_error_None; rewrite length_map; exact Hk|]).
    reflexivity.
Qed.

(** X9.  Estimators do not interfere: after a successful [fit] of one
    estimator, a [fit] of another estimator, whatever its outcome, leaves
    the outcome of [transform] with the first one unchanged, for every
    frame. *)
Theorem transform_ignores_other_fits
        (self s o : ref) (reference reference' df : DataFrame) (a a' : columns_arg)
        (h0 h : Heap) :
  fit self reference a h0 = (h, Ok s) ->
  o <> s ->
  snd (transform s df (fst (fit o reference' a' h))) = snd (transform s df h).
Proof.
  intros Hfit Hne. apply transform_local.
  destruct (fit_run o reference' a' h) as (Ho & _). apply Ho.
  intros E. apply Hne. symmetry; exact E.
Qed.

(* ================================================================== *)
(** * Further properties of the pair selection *)

Section SelectionFacts.

Local Open Scope list_scope.

Lemma upper_triangle_In (n i j : nat) :
  In (i, j) (upper_triangle n) <-> i < j /\ j < n.
Proof.
  unfold upper_triangle. rewrite in_flat_map. split.
  - intros (i' & Hi' & Hin). apply in_map_iff in Hin as (j' & E & Hj').
    inversion E; subst. apply in_seq in Hi', Hj'. lia.
  - intros [Hij Hj]. exists i. split; [apply in_seq; lia|].
    apply in_map_iff. exists j. split; [reflexivity|apply in_seq; lia].
Qed.

Lemma map_filter_ext_in {A B} (f g : A -> B) (p q : A -> bool) (l : list A) :
  (forall a, In a l -> p a = q a /\ f a = g a) ->
  map f (filter p l) = map g (filter q l).
Proof.
  induction l as [|a l IH]; intros H; simpl; [reflexivity|].
  destruct (H a (or_introl eq_refl)) as [Hp Hf]. rewrite <- Hp.
  destruct (p a); simpl; rewrite ?Hf, IH; auto;
    intros; apply H; right; assumption.
Qed.

Lemma NoDup_flat_map_disjoint {A B} (f : A -> list B) (l : list A) :
  NoDup l ->
  (forall a, In a l -> NoDup (f a)) ->
  (forall a b x, In a l -> In b l -> In x (f a) -> In x (f b) -> a = b) ->
  NoDup (flat_map f l).
Proof.
  induction 1 as [|a l Ha Hl IH]; intros Hf Hd; simpl; [constructor|].
  apply NoDup_app.
  - apply Hf; left; reflexivity.
  - apply IH; [intros; apply Hf; right; assumption|].
    intros b c x Hb Hc. apply Hd; right; assumption.
  - intros x Hx Hin. apply in_flat_map in Hin as (b & Hb & Hxb).
    assert (a = b) by (apply (Hd a b x); simpl; auto).
    subst b. contradiction.
Qed.

Lemma upper_triangle_NoDup (n : nat) : NoDup (upper_triangle n).
Proof.
  unfold upper_triangle. apply NoDup_flat_map_disjoint.
  - apply seq_NoDup.
  - intros i _. apply NoDup_map_NoDup_ForallPairs; [|apply seq_NoDup].
    intros j j' _ _ E. inversion E; reflexivity.
  - intros i i' [x y] _ _ Hx Hy.
    apply in_map_iff in Hx as (? & E1 & _). apply in_map_iff in Hy as (? & E2 & _).
    inversion E1; inversion E2; subst. reflexivity.
Qed.

Lemma triangle_sum (d k : nat) :
  2 * list_sum (map (fun i => (k + d) - S i) (seq k d)) = d * (d - 1).
Proof.
  revert k. induction d as [|d IH]; intros k; [reflexivity|].
  simpl seq. simpl map. simpl list_sum.
  rewrite (map_ext _ (fun i => (S k + d) - S i)) by (intros; lia).
  specialize (IH (S k)). nia.
Qed.

Lemma upper_triangle_length (n : nat) :
  2 * List.length (upper_triangle n) = n * (n - 1).
Proof.
  unfold upper_triangle. rewrite length_flat_map.
  rewrite (map_ext _ (fun i => (0 + n) - S i))
    by (intros; rewrite length_map, length_seq; reflexivity).
  apply triangle_sum.
Qed.

(** The loops raise nothing but [IndexError]. *)
Lemma for_j_raises (cm : CorrMatrix) (threshold : float) (i : nat) (js : list nat)
      (acc : list triple) (e : exn) :
  for_j cm threshold i js acc = Raise e -> e = IndexError.
Proof.
  revert acc. induction js as [|j js IH]; intros acc; simpl; [discriminate|].
  unfold iloc. destruct (nth_error (cm_values cm) i) as [row|]; simpl;
    [|intros H; inversion H; reflexivity].
  destruct (nth_error row j); simpl; [apply IH|intros H; inversion H; reflexivity].
Qed.

Lemma for_i_raises (cm : CorrMatrix) (threshold : float) (rows_i : list nat)
      (acc : list triple) (e : exn) :
  for_i cm threshold rows_i acc = Raise e -> e = IndexError.
Proof.
  revert acc. induction rows_i as [|i rows_i IH]; intros acc; simpl; [discriminate|].
  destruct (for_j cm threshold i _ acc) eqn:E; simpl.
  - apply IH.
  - intros H; inversion H; subst. eapply for_j_raises; eassumption.
Qed.

(** Loops that end have found every cell they asked for. *)
Lemma for_j_Ok_cells (cm : CorrMatrix) (threshold : float) (i : nat) (js : list nat)
      (acc l : list triple) (j : nat) :
  for_j cm threshold i js acc = Ok l -> In j js -> exists v, iloc cm i j = Ok v.
Proof.
  revert acc. induction js as [|j0 js IH]; intros acc H Hin; [contradiction|].
  simpl in H. destruct (iloc cm i j0) as [v|] eqn:E; simpl in H; [|discriminate].
  destruct Hin as [<-|Hin]; [eauto|]. eapply IH; eassumption.
Qed.

Lemma for_i_Ok_cells (cm : CorrMatrix) (threshold : float) (rows_i : list nat)
      (acc l : list triple) (i j : nat) :
  for_i cm threshold rows_i acc = Ok l ->
  In i rows_i -> In j (seq (S i) (List.length (cm_columns cm) - S i)) ->
  exists v, iloc cm i j = Ok v.
Proof.
  revert acc. induction rows_i as [|i0 rows_i IH]; intros acc H Hi Hj; [contradiction|].
  simpl in H. destruct (for_j cm threshold i0 _ acc) as [acc'|] eqn:E; simpl in H;
    [|discriminate].
  destruct Hi as [<-|Hi].
  - eapply for_j_Ok_cells; eassumption.
  - eapply IH; eassumption.
Qed.

End SelectionFacts.

Section ScatterFacts.

Local Open Scope list_scope.

Variable draw : DataFrame -> list triple -> Z -> Z -> result unit.

(** What the function returns, it has selected. *)
Lemma scatter_Ok_inv (df : DataFrame) (cm : CorrMatrix) (threshold : float)
      (n_cols : Z) (l : list triple) :
  square cm ->
  plot_high_correlation_scatter draw df cm threshold n_cols = Ok l ->
  l = high_pairs cm threshold.
Proof.
  intros Hsq. unfold plot_high_correlation_scatter.
  rewrite (loops_high_pairs cm threshold Hsq). simpl Py.bind.
  destruct (high_pairs cm threshold) as [|t ts].
  - intros H; inversion H; reflexivity.
  - destruct (Z.eqb n_cols 0); simpl; [discriminate|].
    destruct (draw _ _ _ _); simpl; [|discriminate].
    intros H; inversion H; reflexivity.
Qed.

Lemma high_pairs_ext (cm1 cm2 : CorrMatrix) (threshold : float) :
  cm_columns cm1 = cm_columns cm2 ->
  (forall i j, i < j -> j < List.length (cm_columns cm1) ->
               entry cm1 i j = entry cm2 i j) ->
  high_pairs cm1 threshold = high_pairs cm2 threshold.
Proof.
  intros Hc He. unfold high_pairs. rewrite <- Hc.
  apply map_filter_ext_in. intros [i j] Hin.
  apply upper_triangle_In in Hin as [Hij Hj].
  unfold col. rewrite <- Hc, (He i j Hij Hj). split; reflexivity.
Qed.

Lemma leb_zero_abs (x : float) : is_nan x = false -> (0 <=? abs x)%float = true.
Proof.
  unfold is_nan. intros H. apply negb_false_iff in H.
  rewrite FloatAxioms.eqb_spec in H.
  rewrite FloatAxioms.leb_spec, FloatAxioms.abs_spec.
  change (Prim2SF 0) with (S754_zero false).
  destruct (Prim2SF x) as [s|s| |s m e]; try reflexivity. discriminate.
Qed.

End ScatterFacts.

(** X10.  The selection reads the strict upper triangle only: two square
    matrices with the same column labels that agree above the diagonal
    give the same outcome, whatever their diagonals and lower triangles
    hold. *)
Theorem scatter_reads_upper_triangle
        (draw : DataFrame -> list triple -> Z -> Z -> result unit)
        (df : DataFrame) (cm1 cm2 : CorrMatrix) (threshold : float) (n_cols : Z) :
  square cm1 -> square cm2 ->
  cm_columns cm1 = cm_columns cm2 ->
  (forall i j, i < j -> j < List.length (cm_columns cm1) ->
               entry cm1 i j = entry cm2 i j) ->
  plot_high_correlation_scatter draw df cm1 threshold n_cols =
  plot_high_correlation_scatter draw df cm2 threshold n_cols.
Proof.
  intros Hsq1 Hsq2 Hc He. unfold plot_high_correlation_scatter.
  rewrite (loops_high_pairs cm1 threshold Hsq1), (loops_high_pairs cm2 threshold Hsq2).
  rewrite (high_pairs_ext cm1 cm2 threshold Hc He). reflexivity.
Qed.

(** X11.  An undefined correlation (NaN, as pandas gives for a constant
    column) is never among the returned triples, and with a NaN threshold
    the function returns the empty list without drawing. *)
Theorem undefined_correlation_skipped
        (draw : DataFrame -> list triple -> Z -> Z -> result unit)
        (df : DataFrame) (cm : CorrMatrix) (threshold : float) (n_cols : Z) :
  square cm ->
  (forall l x y v,
      plot_high_correlation_scatter draw df cm threshold n_cols = Ok l ->
      In (x, y, v) l -> is_nan v = false) /\
  (is_nan threshold = true ->
   plot_high_correlation_scatter draw df cm threshold n_cols = Ok []).
Proof.
  intros Hsq. split.
  - intros l x y v Hl Hin. apply (scatter_Ok_inv draw df cm threshold n_cols l Hsq) in Hl.
    subst l. apply high_pairs_In in Hin as (i & j & _ & _ & E & Hp).
    inversion E; subst. destruct (is_nan (entry cm i j)) eqn:N; [|reflexivity].
    rewrite (leb_nan_r threshold _ (abs_nan _ N)) in Hp. discriminate.
  - intros Hn. unfold plot_high_correlation_scatter.
    rewrite (loops_high_pairs cm threshold Hsq). simpl Py.bind.
    replace (high_pairs cm threshold) with (@nil triple); [reflexivity|].
    symmetry. unfold high_pairs.
    induction (upper_triangle (List.length (cm_columns cm))) as [|[i j] l IH];
      [reflexivity|].
    simpl. rewrite (leb_nan_l threshold _ Hn). exact IH.
Qed.

(** X12.  With [n_cols = 0] and at least one pair selected, the function
    raises [ZeroDivisionError] before anything is drawn. *)
Theorem zero_grid_columns
        (draw : DataFrame -> list triple -> Z -> Z -> result unit)
        (df : DataFrame) (cm : CorrMatrix) (threshold : float) :
  square cm ->
  high_pairs cm threshold <> [] ->
  plot_high_correlation_scatter draw df cm threshold 0 = Raise ZeroDivisionError.
Proof.
  intros Hsq Hne. unfold plot_high_correlation_scatter.
  rewrite (loops_high_pairs cm threshold Hsq). simpl Py.bind.
  destruct (high_pairs cm threshold); [contradiction|reflexivity].
Qed.

(** X13.  When the matrix lacks a cell above the diagonal (fewer rows
    than columns, or a short row), the function raises [IndexError],
    whatever the threshold, and nothing is drawn. *)
Theorem missing_cell_raises
        (draw : DataFrame -> list triple -> Z -> Z -> result unit)
        (df : DataFrame) (cm : CorrMatrix) (threshold : float) (n_cols : Z) (i j : nat) :
  i < j -> j < List.length (cm_columns cm) ->
  iloc cm i j = Raise IndexError ->
  plot_high_correlation_scatter draw df cm threshold n_cols = Raise IndexError.
Proof.
  intros Hij Hj Hcell. unfold plot_high_correlation_scatter.
  destruct (for_i cm threshold (seq O (List.length (cm_columns cm))) [])
    as [l|e] eqn:E; simpl.
  - destruct (for_i_Ok_cells cm threshold _ [] l i j E) as [v Hv].
    + apply in_seq. lia.
    + apply in_seq. lia.
    + rewrite Hv in Hcell. discriminate.
  - rewrite (for_i_raises cm threshold _ [] e E). reflexivity.
Qed.

(** X14.  The function returns at most [n (n - 1) / 2] triples for [n]
    columns; when the column labels are distinct, no triple pairs a
    column with itself and no pair of columns is returned twice, in
    either order. *)
Theorem pairs_returned_once
        (draw : DataFrame -> list triple -> Z -> Z -> result unit)
        (df : DataFrame) (cm : CorrMatrix) (threshold : float) (n_cols : Z)
        (l : list triple) :
  square cm ->
  plot_high_correlation_scatter draw df cm threshold n_cols = Ok l ->
  2 * List.length l <= List.length (cm_columns cm) * (List.length (cm_columns cm) - 1) /\
  (NoDup (cm_columns cm) ->
   (forall x y v, In (x, y, v) l -> x <> y) /\
   NoDup (map fst l) /\
   (forall x y v w, In (x, y, v) l -> ~ In (y, x, w) l)).
Proof.
  intros Hsq Hl. apply (scatter_Ok_inv draw df cm threshold n_cols l Hsq) in Hl.
  subst l. split.
  - unfold high_pairs. rewrite length_map.
    rewrite <- upper_triangle_length.
    pose proof (filter_length_le
                  (fun '(i, j) => (threshold <=? abs (entry cm i j))%float)
                  (upper_triangle (List.length (cm_columns cm)))).
    lia.
  - intros Hnd.
    assert (Hinj : forall i j, i < List.length (cm_columns cm) ->
                               j < List.length (cm_columns cm) ->
                               col cm i = col cm j -> i = j).
    { apply (NoDup_nth (cm_columns cm) EmptyString). exact Hnd. }
    split; [|split].
    + intros x y v Hin. apply high_pairs_In in Hin as (i & j & Hij & Hj & E & _).
      inversion E; subst. intros Eq. apply Hinj in Eq; lia.
    + unfold high_pairs. rewrite map_map.
      apply NoDup_map_NoDup_ForallPairs;
        [|apply NoDup_filter, upper_triangle_NoDup].
      intros [i j] [i' j'] H1 H2 E.
      apply filter_In in H1 as [H1 _]. apply filter_In in H2 as [H2 _].
      apply upper_triangle_In in H1, H2. simpl in E. inversion E as [[E1 E2]].
      apply Hinj in E1; [|lia|lia]. apply Hinj in E2; [|lia|lia]. subst. reflexivity.
    + intros x y v w H1 H2.
      apply high_pairs_In in H1 as (i & j & Hij & Hj & E1 & _).
      apply high_pairs_In in H2 as (i' & j' & Hij' & Hj' & E2 & _).
      inversion E1; inversion E2; subst.
      assert (j = i') by (apply Hinj; [lia|lia|congruence]).
      assert (i = j') by (apply Hinj; [lia|lia|congruence]).
      lia.
Qed.

(** X15.  When the function draws, with [n_cols > 0], the number of grid
    rows it asks for is the least that gives every selected pair a cell:
    the grid has at least as many cells as pairs, and one row less would
    have too few. *)
Theorem grid_holds_all_plots
        (draw : DataFrame -> list triple -> Z -> Z -> result unit)
        (df : DataFrame) (cm : CorrMatrix) (threshold : float) (n_cols : Z)
        (l : list triple) :
  square cm ->
  (0 < n_cols)%Z ->
  l <> [] ->
  plot_high_correlation_scatter draw df cm threshold n_cols = Ok l ->
  exists n_rows : Z,
    draw df l n_rows n_cols = Ok tt /\
    ((n_rows - 1) * n_cols < Z.of_nat (List.length l) <= n_rows * n_cols)%Z.
Proof.
  intros Hsq Hn Hne. unfold plot_high_correlation_scatter.
  rewrite (loops_high_pairs cm threshold Hsq). simpl Py.bind.
  destruct (high_pairs cm threshold) as [|t ts].
  - intros H; inversion H; subst. contradiction.
  - replace (Z.eqb n_cols 0) with false by (symmetry; apply Z.eqb_neq; lia).
    unfold Py.bind.
    destruct (draw df (t :: ts) _ n_cols) as [[]|] eqn:Ed; [|discriminate].
    intros H; inversion H; subst l. eexists. split; [exact Ed|].
    pose proof (Z.div_mod (Z.of_nat (List.length (t :: ts)) + n_cols - 1) n_cols
                  ltac:(lia)) as Hdm.
    pose proof (Z.mod_pos_bound (Z.of_nat (List.length (t :: ts)) + n_cols - 1) n_cols Hn).
    nia.
Qed.

(** X16.  With threshold 0 and no undefined correlation above the
    diagonal, every pair of the strict upper triangle is returned. *)
Theorem zero_threshold_selects_all
        (draw : DataFrame -> list triple -> Z -> Z -> result unit)
        (df : DataFrame) (cm : CorrMatrix) (n_cols : Z) (l : list triple) :
  square cm ->
  (forall i j, i < j -> j < List.length (cm_columns cm) ->
               is_nan (entry cm i j) = false) ->
  plot_high_correlation_scatter draw df cm 0%float n_cols = Ok l ->
  l = map (fun '(i, j) => (col cm i, col cm j, entry cm i j))
          (upper_triangle (List.length (cm_columns cm))).
Proof.
  intros Hsq Hdef Hl. apply (scatter_Ok_inv draw df cm 0%float n_cols l Hsq) in Hl.
  subst l. unfold high_pairs. f_equal.
  apply forallb_filter_id. apply forallb_forall. intros [i j] Hin.
  apply upper_triangle_In in Hin as [Hij Hj].
  apply leb_zero_abs, Hdef; assumption.
Qed.

(* ================================================================== *)
(** * The further properties on sample data *)

(** [fit_missing_columns]: [patients] has neither [age] nor [z]. *)
Lemma fit_missing_columns_witness :
  forallb (has_column (columns Samples.patients)) ["x"; "age"; "sex"; "z"] = false /\
  snd (fit 0 Samples.patients (Names ["x"; "age"; "sex"; "z"]) Samples.fresh_heap)
    = Raise (KeyError ["age"; "z"]) /\
  numerical_columns_
    (fst (fit 0 Samples.patients (Names ["x"; "age"; "sex"; "z"]) Samples.fresh_heap) 0)
    = Some ["x"; "age"; "sex"; "z"] /\
  stats_
    (fst (fit 0 Samples.patients (Names ["x"; "age"; "sex"; "z"]) Samples.fresh_heap) 0)
    = Some (mkStats ["x"; "age"; "sex"; "z"] []).
Proof.
  split; [reflexivity|].
  apply (fit_missing_columns 0 Samples.patients (Names ["x"; "age"; "sex"; "z"])
           Samples.fresh_heap).
  reflexivity.
Defined.



(** [transform_missing_columns]: [only_x] has no column [y]. *)
Lemma transform_missing_columns_witness :
  fit 0 Samples.patients (Names ["x"; "y"]) Samples.fresh_heap
    = (Samples.fitted_heap, Ok 0) /\
  forallb (has_column (columns MoreSamples.only_x)) ["x"; "y"] = false /\
  transform 0 MoreSamples.only_x Samples.fitted_heap
    = (Samples.fitted_heap, Raise (KeyError ["y"])).
Proof.
  split; [vm_compute; reflexivity|]. split; [reflexivity|].
  apply (transform_missing_columns 0 0 Samples.patients MoreSamples.only_x
           (Names ["x"; "y"]) Samples.fresh_heap Samples.fitted_heap);
    vm_compute; reflexivity.
Defined.

(** [transform_non_numeric]: [patients_text] has text in [x]. *)
Lemma transform_non_numeric_witness :
  fit 0 Samples.patients (Names ["x"; "y"]) Samples.fresh_heap
    = (Samples.fitted_heap, Ok 0) /\
  forallb (has_column (columns MoreSamples.patients_text)) ["x"; "y"] = true /\
  forallb (numeric_column MoreSamples.patients_text) ["x"; "y"] = false /\
  transform 0 MoreSamples.patients_text Samples.fitted_heap
    = (Samples.fitted_heap, Raise TypeError).
Proof.
  split; [vm_compute; reflexivity|]. split; [reflexivity|]. split; [reflexivity|].
  apply (transform_non_numeric 0 0 Samples.patients MoreSamples.patients_text
           (Names ["x"; "y"]) Samples.fresh_heap Samples.fitted_heap);
    vm_compute; reflexivity.
Defined.

(** [transform_concat] on two chunks of [patients]. *)
Lemma transform_concat_witness :
  transform 0 (mkDF ["x"; "y"; "sex"] (MoreSamples.chunk1 ++ MoreSamples.chunk2))
            Samples.fitted_heap
  = (Samples.fitted_heap,
     Ok (mkDF ["x"; "y"; "sex"]
              ([mkRow 0 [Num 1; Num 10; Obj "F"]] ++ [mkRow 2 [Num 2; Num 12; Obj "F"]]))).
Proof.
  apply (transform_concat 0 0 Samples.patients (Names ["x"; "y"]) Samples.fresh_heap
           Samples.fitted_heap ["x"; "y"; "sex"] MoreSamples.chunk1 MoreSamples.chunk2
           (mkDF ["x"; "y"; "sex"] [mkRow 0 [Num 1; Num 10; Obj "F"]])
           (mkDF ["x"; "y"; "sex"] [mkRow 2 [Num 2; Num 12; Obj "F"]]));
    vm_compute; reflexivity.
Defined.


(** [fitted_statistics_formulas] for the column [y] of [patients]. *)
Lemma fitted_statistics_formulas_witness :
  (1 < List.length ["x"; "y"] ->
   exists q1 q3 : float,
     stat_at (Samples.fitted_heap 0) "Q1" 1 = Some q1 /\
     stat_at (Samples.fitted_heap 0) "Q3" 1 = Some q3 /\
     stat_at (Samples.fitted_heap 0) "IQR" 1 = Some (q3 - q1)%float /\
     stat_at (Samples.fitted_heap 0) "lower_cutoff" 1 = Some (q1 - 1.5 * (q3 - q1))%float /\
     stat_at (Samples.fitted_heap 0) "upper_cutoff" 1 = Some (q3 + 1.5 * (q3 - q1))%float) /\
  (List.length ["x"; "y"] <= 1 ->
   forall name, stat_at (Samples.fitted_heap 0) name 1 = None).
Proof.
  apply (fitted_statistics_formulas 0 0 Samples.patients (Names ["x"; "y"])
           Samples.fresh_heap Samples.fitted_heap 1).
  vm_compute; reflexivity.
Defined.

(** [transform_ignores_other_fits]: fitting estimator 1 does not change
    what estimator 0 does with [patients]. *)
Lemma transform_ignores_other_fits_witness :
  snd (transform 0 Samples.patients
                 (fst (fit 1 Samples.ten_values (Name "x") Samples.fitted_heap)))
  = snd (transform 0 Samples.patients Samples.fitted_heap).
Proof.
  apply (transform_ignores_other_fits 0 0 1 Samples.patients Samples.ten_values
           Samples.patients (Names ["x"; "y"]) (Name "x") Samples.fresh_heap
           Samples.fitted_heap).
  - vm_compute; reflexivity.
  - discriminate.
Defined.

(** [scatter_reads_upper_triangle]: [corr3] and [corr3_upper] differ
    below and on the diagonal only. *)
Lemma scatter_reads_upper_triangle_witness :
  plot_high_correlation_scatter Samples.draw_nothing Samples.patients Samples.corr3
                                0.5%float 4
  = plot_high_correlation_scatter Samples.draw_nothing Samples.patients
                                  MoreSamples.corr3_upper 0.5%float 4.
Proof.
  apply (scatter_reads_upper_triangle Samples.draw_nothing Samples.patients
           Samples.corr3 MoreSamples.corr3_upper 0.5%float 4).
  - split; [reflexivity|]. repeat constructor.
  - split; [reflexivity|]. repeat constructor.
  - reflexivity.
  - intros i j Hij Hj. simpl in Hj.
    destruct i as [|[|[|i]]], j as [|[|[|j]]]; try lia; reflexivity.
Defined.

(** [undefined_correlation_skipped] on a matrix with a NaN entry. *)
Lemma undefined_correlation_skipped_witness :
  (forall l x y v,
      plot_high_correlation_scatter Samples.draw_nothing Samples.patients
                                    MoreSamples.corr_nan 0.5%float 4 = Ok l ->
      In (x, y, v) l -> is_nan v = false) /\
  (is_nan 0.5%float = true ->
   plot_high_correlation_scatter Samples.draw_nothing Samples.patients
                                 MoreSamples.corr_nan 0.5%float 4 = Ok []).
Proof.
  apply (undefined_correlation_skipped Samples.draw_nothing Samples.patients
           MoreSamples.corr_nan 0.5%float 4).
  split; [reflexivity|]. repeat constructor.
Defined.

(** [zero_grid_columns] on [corr3]. *)
Lemma zero_grid_columns_witness :
  plot_high_correlation_scatter Samples.draw_nothing Samples.patients Samples.corr3
                                0.5%float 0
  = Raise ZeroDivisionError.
Proof.
  apply (zero_grid_columns Samples.draw_nothing Samples.patients Samples.corr3 0.5%float).
  - split; [reflexivity|]. repeat constructor.
  - vm_compute. discriminate.
Defined.

(** [missing_cell_raises]: the second row of [ragged] has no third
    entry. *)
Lemma missing_cell_raises_witness :
  iloc MoreSamples.ragged 1 2 = Raise IndexError /\
  plot_high_correlation_scatter Samples.draw_nothing Samples.patients MoreSamples.ragged
                                0.5%float 4
  = Raise IndexError.
Proof.
  split; [reflexivity|].
  apply (missing_cell_raises Samples.draw_nothing Samples.patients MoreSamples.ragged
           0.5%float 4 1 2); [lia | simpl; lia | reflexivity].
Defined.

(** [pairs_returned_once] on [corr3]. *)
Lemma pairs_returned_once_witness :
  2 * List.length [("a", "b", 0.75%float); ("b", "c", (-0.625)%float)]
  <= List.length (cm_columns Samples.corr3) * (List.length (cm_columns Samples.corr3) - 1) /\
  (NoDup (cm_columns Samples.corr3) ->
   (forall x y v, In (x, y, v) [("a", "b", 0.75%float); ("b", "c", (-0.625)%float)] ->
                  x <> y) /\
   NoDup (map fst [("a", "b", 0.75%float); ("b", "c", (-0.625)%float)]) /\
   (forall x y v w,
       In (x, y, v) [("a", "b", 0.75%float); ("b", "c", (-0.625)%float)] ->
       ~ In (y, x, w) [("a", "b", 0.75%float); ("b", "c", (-0.625)%float)])).
Proof.
  apply (pairs_returned_once Samples.draw_nothing Samples.patients Samples.corr3
           0.5%float 4).
  - split; [reflexivity|]. repeat constructor.
  - vm_compute; reflexivity.
Defined.

(** [grid_holds_all_plots] on [corr3]: two pairs, four columns, one
    row. *)
Lemma grid_holds_all_plots_witness :
  exists n_rows : Z,
    Samples.draw_nothing Samples.patients
      [("a", "b", 0.75%float); ("b", "c", (-0.625)%float)] n_rows 4 = Ok tt /\
    ((n_rows - 1) * 4
     < Z.of_nat (List.length [("a", "b", 0.75%float); ("b", "c", (-0.625)%float)])
     <= n_rows * 4)%Z.
Proof.
  apply (grid_holds_all_plots Samples.draw_nothing Samples.patients Samples.corr3
           0.5%float 4).
  - split; [reflexivity|]. repeat constructor.
  - reflexivity.
  - discriminate.
  - vm_compute; reflexivity.
Defined.

(** [zero_threshold_selects_all] on [corr3]. *)
Lemma zero_threshold_selects_all_witness :
  [("a", "b", 0.75%float); ("a", "c", 0.125%float); ("b", "c", (-0.625)%float)]
  = map (fun '(i, j) => (col Samples.corr3 i, col Samples.corr3 j,
                         entry Samples.corr3 i j))
        (upper_triangle (List.length (cm_columns Samples.corr3))).
Proof.
  apply (zero_threshold_selects_all Samples.draw_nothing Samples.patients Samples.corr3 4).
  - split; [reflexivity|]. repeat constructor.
  - intros i j Hij Hj. simpl in Hj.
    destruct i as [|[|[|i]]], j as [|[|[|j]]]; try lia; reflexivity.
  - vm_compute; reflexivity.
Defined.

(* ================================================================== *)
(** * [transform] on nullable columns *)

Lemma mapM_ext_all {A B} (f g : A -> result B) (l : list A) :
  (forall a, f a = g a) -> mapM f l = mapM g l.
Proof.
  intros H. induction l as [|a l IH]; simpl; [reflexivity|].
  rewrite H, IH. reflexivity.
Qed.

Section NullableFacts.

Local Open Scope string_scope.

Import Nullable.

Lemma ngetitem_list_has (df : NFrame) (cs : list string) :
  Nullable.getitem_list df cs =
  if forallb (has_column (ncolumns df)) cs
  then Ok (mkNFrame cs (map (fun r => mkNRow (nlabel r) (map (ncell_at (ncolumns df) r) cs))
                            (nrows df)))
  else Raise (KeyError (filter (fun c => negb (has_column (ncolumns df) c)) cs)).
Proof.
  unfold Nullable.getitem_list.
  destruct (forallb (has_column (ncolumns df)) cs) eqn:E.
  - replace (filter _ cs) with (@nil string); [reflexivity|].
    symmetry. induction cs as [|c cs IH]; [reflexivity|].
    simpl in E |- *. apply andb_true_iff in E as [E1 E2].
    rewrite E1. simpl. apply IH, E2.
  - destruct (filter _ cs) eqn:F; [|reflexivity].
    exfalso. assert (forallb (has_column (ncolumns df)) cs = true); [|congruence].
    clear E. induction cs as [|c cs IH]; [reflexivity|].
    simpl in F |- *. destruct (has_column (ncolumns df) c); simpl in F;
      [apply IH, F | discriminate].
Qed.

(** Comparing the selected cells of a row with one cutoff per selected
    column: a nullable boolean per column, or [TypeError] when a cell
    belongs to an [object] column. *)
Lemma ncmp_cells_map (op : float -> float -> bool) (g : string -> ncell)
      (f : string -> float) (cs : list string) :
  Nullable.cmp_cells op (map g cs) (map f cs) =
  if forallb (fun c => match g c with NObj _ => false | _ => true end) cs
  then Ok (map (fun c => match g c with NNum x => Some (op x (f c)) | _ => None end) cs)
  else Raise TypeError.
Proof.
  induction cs as [|c cs IH]; [reflexivity|].
  cbn [map Nullable.cmp_cells forallb]. rewrite IH.
  destruct (g c) as [x| |s]; cbn [Nullable.cmp_cell Py.bind andb];
    [| |reflexivity];
    destruct (forallb _ cs); reflexivity.
Qed.

(** The two comparisons of a row, combined and reduced with [<NA>]
    skipped, check each cell with [nwithin]. *)
Lemma nrow_decision (g : string -> ncell) (lo hi : string -> float) (cs : list string) :
  forallb (fun c => match g c with NObj _ => false | _ => true end) cs = true ->
  forallb (fun b => match b with Some false => false | _ => true end)
          (zip_with and3
             (map (fun c => match g c with NNum x => Some (ge x (lo c)) | _ => None end) cs)
             (map (fun c => match g c with NNum x => Some (le x (hi c)) | _ => None end) cs))
  = forallb (fun c => nwithin (lo c) (hi c) (g c)) cs.
Proof.
  induction cs as [|c cs IH]; [reflexivity|].
  cbn [map zip_with forallb]. intros H. apply andb_true_iff in H as [Hc Hcs].
  rewrite (IH Hcs). f_equal.
  destruct (g c) as [x| |s]; [|reflexivity|discriminate].
  unfold nwithin, ge, le, and3.
  destruct (lo c <=? x)%float, (x <=? hi c)%float; reflexivity.
Qed.

Lemma nselect_rows_filter (k : NRow -> bool) (f : NRow -> list (option bool))
      (rs : list NRow) :
  (forall r, In r rs ->
             forallb (fun b => match b with Some false => false | _ => true end) (f r) = k r) ->
  Nullable.select_rows (map (fun r => forallb (fun b => match b with
                                                        | Some false => false
                                                        | _ => true
                                                        end) (f r)) rs) rs
  = filter k rs.
Proof.
  induction rs as [|r rs IH]; intros H; [reflexivity|]. simpl.
  rewrite (H r (or_introl eq_refl)), IH; [reflexivity|].
  intros; apply H; right; assumption.
Qed.

(** One comparison of [transform] on a nullable frame, for a fitted
    state. *)
Lemma ncompare_selected_fitted (op : float -> float -> bool) (self : ref)
      (reference : DataFrame) (df : NFrame) (cs : list string) (h : Heap)
      (name : string) (cut : string -> float) :
  h self = fitted_state reference cs ->
  assoc_get name (st_data (mkStats cs
               [("Q1", map (Q1_of reference) cs);
                ("Q3", map (Q3_of reference) cs);
                ("IQR", map (IQR_of reference) cs);
                ("lower_cutoff", map (lower_cutoff_of reference) cs);
                ("upper_cutoff", map (upper_cutoff_of reference) cs)])) = Some (map cut cs) ->
  Nullable.compare_selected op self df name h =
  (h, if forallb (has_column (ncolumns df)) cs
      then if forallb (fun r => forallb (fun c => match ncell_at (ncolumns df) r c with
                                                  | NObj _ => false
                                                  | _ => true
                                                  end) cs) (nrows df)
           then Ok (map (fun r => map (fun c => match ncell_at (ncolumns df) r c with
                                                | NNum x => Some (op x (cut c))
                                                | _ => None
                                                end) cs) (nrows df))
           else Raise TypeError
      else Raise (KeyError (filter (fun c => negb (has_column (ncolumns df) c)) cs))).
Proof.
  intros Hs Hget.
  unfold Nullable.compare_selected, stats_getitem,
    get_numerical_columns_, get_stats_, getitem_stat, lift, bindM.
  rewrite Hs. simpl numerical_columns_. cbv beta iota.
  rewrite ngetitem_list_has.
  destruct (forallb (has_column (ncolumns df)) cs) eqn:Hhas; [|reflexivity].
  rewrite Hs. unfold fitted_state. simpl stats_. cbv beta iota.
  rewrite Hget.
  unfold Nullable.cmp_frame. simpl ncolumns. simpl s_index.
  replace (list_string_eqb cs cs) with true
    by (symmetry; apply list_string_eqb_eq; reflexivity).
  simpl nrows. simpl s_values. rewrite mapM_map. simpl ncells.
  rewrite (mapM_ext_all _ _ _ (fun r => ncmp_cells_map op (ncell_at (ncolumns df) r) cut cs)).
  rewrite mapM_guarded. reflexivity.
Qed.

(** The outcome of [transform] on a nullable frame, for a fitted
    state. *)
Lemma ntransform_fitted_outcome (self : ref) (reference : DataFrame) (df : NFrame)
      (cs : list string) (h : Heap) :
  h self = fitted_state reference cs ->
  Nullable.transform self df h =
  (h, if forallb (has_column (ncolumns df)) cs
      then if forallb (fun r => forallb (fun c => match ncell_at (ncolumns df) r c with
                                                  | NObj _ => false
                                                  | _ => true
                                                  end) cs) (nrows df)
           then Ok (mkNFrame (ncolumns df)
                      (filter (fun r => forallb (fun c => nwithin (lower_cutoff_of reference c)
                                                                  (upper_cutoff_of reference c)
                                                                  (ncell_at (ncolumns df) r c))
                                                cs)
                              (nrows df)))
           else Raise TypeError
      else Raise (KeyError (filter (fun c => negb (has_column (ncolumns df) c)) cs))).
Proof.
  intros Hs. unfold Nullable.transform, bindM, ret.
  rewrite (ncompare_selected_fitted ge self reference df cs h "lower_cutoff"
             (lower_cutoff_of reference) Hs eq_refl).
  destruct (forallb (has_column (ncolumns df)) cs) eqn:Hhas; [|reflexivity].
  destruct (forallb _ (nrows df)) eqn:Hnum; [|reflexivity].
  rewrite (ncompare_selected_fitted le self reference df cs h "upper_cutoff"
             (upper_cutoff_of reference) Hs eq_refl).
  rewrite Hhas, Hnum.
  unfold Nullable.getitem_mask, Nullable.all_axis1, Nullable.frame_and.
  f_equal. f_equal. f_equal.
  rewrite zip_with_map, map_map.
  apply nselect_rows_filter. intros r Hr.
  rewrite zip_with_map.
  rewrite <- (nrow_decision (ncell_at (ncolumns df) r) (lower_cutoff_of reference)
                (upper_cutoff_of reference) cs)
    by (rewrite forallb_forall in Hnum; apply Hnum, Hr).
  rewrite zip_with_map. reflexivity.
Qed.

Lemma forallb_ext_all {A} (p q : A -> bool) (l : list A) :
  (forall a, p a = q a) -> forallb p l = forallb q l.
Proof.
  intros H. induction l as [|a l IH]; simpl; [reflexivity|].
  rewrite H, IH. reflexivity.
Qed.

Lemma ncell_at_of_row (cols : list string) (r : Row) (c : string) :
  ncell_at cols (of_row r) c = of_cell (at_label cols r c).
Proof.
  unfold ncell_at, at_label, iat. destruct (get_loc c cols) as [p|]; [|reflexivity].
  simpl ncells. apply (map_nth of_cell (cells r) (Num nan) p).
Qed.

Lemma filter_map_comm {A B} (p : B -> bool) (f : A -> B) (l : list A) :
  filter p (map f l) = map f (filter (fun a => p (f a)) l).
Proof.
  induction l as [|a l IH]; simpl; [reflexivity|].
  rewrite IH. destruct (p (f a)); reflexivity.
Qed.

(** On a frame without [pd.NA] the two embeddings of [transform] agree:
    same exception, or the same rows. *)
Lemma nullable_agrees (self : ref) (reference df : DataFrame) (cs : list string) (h : Heap) :
  h self = fitted_state reference cs ->
  Nullable.transform self (of_frame df) h =
  (h, match snd (Preprocessing.transform self df h) with
      | Ok out => Ok (of_frame out)
      | Raise e => Raise e
      end).
Proof.
  intros Hs.
  rewrite (ntransform_fitted_outcome self reference (of_frame df) cs h Hs).
  rewrite (transform_fitted_outcome self reference df cs h Hs).
  simpl snd. simpl ncolumns. simpl nrows.
  destruct (forallb (has_column (columns df)) cs); [|reflexivity].
  rewrite forallb_map.
  rewrite (forallb_ext_all _ (fun r => forallb (fun c => is_num (at_label (columns df) r c)) cs)).
  2:{ intros r. apply forallb_ext_all. intros c. rewrite ncell_at_of_row.
      destruct (at_label (columns df) r c); reflexivity. }
  rewrite forallb_swap. fold (numeric_column df).
  change (forallb (fun b => forallb (fun a => is_num (at_label (columns df) a b)) (rows df)) cs)
    with (forallb (numeric_column df) cs).
  destruct (forallb (numeric_column df) cs); [|reflexivity].
  unfold of_frame. simpl columns. simpl rows.
  rewrite filter_map_comm. do 4 f_equal.
  apply filter_ext. intros r. unfold keep_row. apply forallb_ext_all. intros c.
  rewrite ncell_at_of_row. destruct (at_label (columns df) r c); reflexivity.
Qed.

End NullableFacts.



